(** * AI attendance system: the data manager of [app.py]

    A shallow embedding of the class [AttendanceData] and of the page
    handlers of [app.py] that read or change its state, followed by the
    properties of the identity store, the matcher, the attendance ledger
    and the aggregator.

    Conventions of the embedding.
    - A Python [dict] is an association list in insertion order with
      pairwise distinct keys: [d[k] = v] replaces the value in place when
      [k] is bound and appends the binding otherwise.
    - A face encoding is an opaque value; the Euclidean distance that
      [face_recognition.face_distance] computes is a parameter [dist] with
      rational values.  Comparisons of finite floats are exact, so the
      order on distances is the order of the numbers they denote; NaN
      distances are outside the model.
    - Reads of the clock ([date.today()], [datetime.now()]) are inputs.
    - A backing file is described by what opening and unpickling it does;
      a save is given the outcome of the write, and the writing of a
      photo file the outcome of that.
    - A float is the rational it denotes; the float quotient and product
      of [get_attendance_stats] are the exact ones rounded to the nearest
      binary64 number, ties to even.  Paths are those of [posixpath]. *)

From Stdlib Require Import Ascii String QArith Qabs Qpower Lqa.
From stdpp Require Import base list strings gmap sorting.


(** ** Strings *)

(** [str.isspace] on the code points below 256 (a character of a Rocq
    string stands for the code point of the same number). *)
Definition isspace (c : ascii) : bool :=
  let n := nat_of_ascii c in
  ((9 <=? n)%nat && (n <=? 13)%nat) || ((28 <=? n)%nat && (n <=? 32)%nat)
  || (n =? 133)%nat || (n =? 160)%nat.

Fixpoint lstrip (s : string) : string :=
  match s with
  | EmptyString => EmptyString
  | String c s' => if isspace c then lstrip s' else s
  end.

Definition rstrip (s : string) : string := String.rev (lstrip (String.rev s)).

(** [s.strip()] *)
Definition strip (s : string) : string := rstrip (lstrip s).

(** Truth value of a string: [bool(s)]. *)
Definition truthy (s : string) : bool :=
  match s with EmptyString => false | _ => true end.

(** ** Paths *)

Definition starts_with_slash (s : string) : bool :=
  match s with
  | String c _ => bool_decide (c = "/"%char)
  | EmptyString => false
  end.

Definition ends_with_slash (s : string) : bool :=
  starts_with_slash (String.rev s).

(** [os.path.join(a, b)]: an absolute [b] discards [a]. *)
Definition path_join (a b : string) : string :=
  if starts_with_slash b then b
  else if negb (truthy a) || ends_with_slash a then a +:+ b
  else a +:+ "/" +:+ b.

(** The characters of [s] before the first [c], and what follows that
    [c] when there is one. *)
Fixpoint take_until (c : ascii) (s : string) : string * option string :=
  match s with
  | EmptyString => (EmptyString, None)
  | String x s' =>
      if decide (x = c) then (EmptyString, Some s')
      else let '(before, after) := take_until c s' in (String x before, after)
  end.

Fixpoint all_dots (s : string) : bool :=
  match s with
  | EmptyString => true
  | String x s' => bool_decide (x = "."%char) && all_dots s'
  end.

(** [os.path.splitext(p)[1]]: the part of the last component from its
    last dot on, which is empty when that component has no dot or has
    only dots before its last one. *)
Definition splitext_ext (p : string) : string :=
  let base_rev := (take_until "/" (String.rev p)).1 in
  match take_until "." base_rev with
  | (ext_rev, Some before_rev) =>
      if all_dots before_rev then EmptyString
      else String "." (String.rev ext_rev)
  | (_, None) => EmptyString
  end.

(** ** Floats *)

(** The integer nearest to [x], the even one of two at the same
    distance. *)
Definition rne (x : Q) : Z :=
  let a := (Qnum x / Zpos (Qden x))%Z in
  let r := (Qnum x mod Zpos (Qden x))%Z in
  match (2 * r ?= Zpos (Qden x))%Z with
  | Lt => a
  | Gt => (a + 1)%Z
  | Eq => if Z.even a then a else (a + 1)%Z
  end.

(** For [0 < q], the exponent [k] of the binade of [q]:
    [2 ^ k <= q < 2 ^ (k + 1)]. *)
Definition ilog2 (q : Q) : Z :=
  let l := (Z.log2 (Qnum q) - Z.log2 (Zpos (Qden q)))%Z in
  if Qle_bool (2 ^ l) q then l else (l - 1)%Z.

(** For [0 < q], the number with a significand of 53 bits nearest to
    [q]. *)
Definition round_pos (q : Q) : Q :=
  let e := (ilog2 q - 52)%Z in
  inject_Z (rne (q / 2 ^ e)) * 2 ^ e.

(** Rounding to binary64, for the normal range: the counts of
    [get_attendance_stats] are lengths, far from the magnitudes at which
    a quotient is subnormal or overflows. *)
Definition round64 (q : Q) : Q :=
  match Qnum q with
  | Z0 => 0
  | Zpos _ => Qred (round_pos q)
  | Zneg _ => Qred (- round_pos (- q))
  end.

(** ** Dictionaries in insertion order *)

Abbreviation dict V := (list (string * V)).

Section Dict.
Context {V : Type}.

Definition dict_keys (d : dict V) : list string := d.*1.
Definition dict_values (d : dict V) : list V := d.*2.

(** [k in d] *)
Definition dict_mem (k : string) (d : dict V) : bool :=
  bool_decide (k ∈ dict_keys d).

(** [d[k]], which raises [KeyError] ([None]) on an unbound key. *)
Fixpoint dict_get (k : string) (d : dict V) : option V :=
  match d with
  | [] => None
  | (k', v) :: d' => if decide (k = k') then Some v else dict_get k d'
  end.

(** [d[k] = v] *)
Fixpoint dict_set (k : string) (v : V) (d : dict V) : dict V :=
  match d with
  | [] => [(k, v)]
  | (k', v') :: d' =>
      if decide (k = k') then (k, v) :: d' else (k', v') :: dict_set k v d'
  end.
End Dict.

(** ** Exceptions, files and outcomes *)

Inductive exception :=
| UnpicklingError   (* pickle.UnpicklingError *)
| EOFError
| OSError           (* open() refused: PermissionError, IsADirectoryError, ... *)
| KeyError
| IndexError
| ValueError
| OtherError.       (* any other class, none of them a subclass of the above *)

(** What a call does: it returns a value or lets an exception escape. *)
Inductive outcome (A : Type) :=
| Returned (v : A)
| Raised (e : exception).
Arguments Returned {A} v.
Arguments Raised {A} e.

(** A backing file, seen from [open(path, 'rb')] followed by
    [pickle.load]: it does not exist, it holds the pickle of a value, or
    reading it raises an exception. *)
Inductive file (A : Type) :=
| NoFile
| Pickle (v : A)
| Unloadable (e : exception).
Arguments NoFile {A}.
Arguments Pickle {A} v.
Arguments Unloadable {A} e.

(** What [open(path, 'wb')] and [pickle.dump] do on a save: the pickle
    reaches the file; or [open] raises [OSError] and the file is as
    before; or [open] has truncated the file and the writing or the
    flush then raises [OSError], which leaves the file empty or, with
    [partial], holding a pickle that is cut off. *)
Inductive write := Flushed | Refused | Torn (partial : bool).

(** A file that a torn write leaves behind: reading an empty file raises
    [EOFError], reading a pickle that is cut off raises
    [pickle.UnpicklingError]. *)
Definition torn_file {A : Type} (partial : bool) : file A :=
  Unloadable (if partial then UnpicklingError else EOFError).

(** [except (pickle.UnpicklingError, EOFError)] *)
Definition caught_on_load (e : exception) : bool :=
  match e with
  | UnpicklingError | EOFError => true
  | _ => false
  end.

(** The common body of [load_students] and [load_attendance]; [empty] is
    [{}] or [[]]. *)
Definition load {A : Type} (empty : A) (f : file A) : outcome A :=
  match f with
  | NoFile => Returned empty                  (* os.path.exists is false *)
  | Pickle v => Returned v
  | Unloadable e =>
      if caught_on_load e then Returned empty else Raised e
  end.

(** The common body of [save_students] and [save_attendance]: the file
    afterwards, and whether the save raised. *)
Definition save {A : Type} (v : A) (w : write) (f : file A)
  : file A * outcome unit :=
  match w with
  | Flushed => (Pickle v, Returned tt)
  | Refused => (f, Raised OSError)
  | Torn partial => (torn_file partial, Raised OSError)
  end.

(** ** Records *)

(** An element of [self.attendance_records].  The keys ['name'],
    ['class'], ['date'] and ['time'] carry the prefix [rec_], since the
    student records have keys of the same names. *)
Record attendance_record := {
  student_id : string;
  rec_name : string;
  rec_class : string;
  rec_date : string;
  rec_time : string;
  status : string
}.

Global Instance attendance_record_eq_dec : EqDecision attendance_record.
Proof. solve_decision. Defined.

(** ** Nearest-neighbour selection *)

(** [x < y] on rationals as a boolean. *)
Definition Qlt_bool (x y : Q) : bool := negb (Qle_bool y x).

(** [np.argmin] on a one-dimensional array: the index of the first
    occurrence of the minimum; it raises [ValueError] on an empty
    array. *)
Fixpoint argmin_from (i best : nat) (m : Q) (l : list Q) : nat :=
  match l with
  | [] => best
  | d :: l' =>
      if Qlt_bool d m then argmin_from (S i) i d l'
      else argmin_from (S i) best m l'
  end.

Definition argmin (l : list Q) : outcome nat :=
  match l with
  | [] => Raised ValueError
  | d :: l' => Returned (argmin_from 1 0 d l')
  end.

(** Position [i] holds a minimum of [l], and no earlier position does. *)
Definition first_min (l : list Q) (i : nat) : Prop :=
  ∃ m, l !! i = Some m
       ∧ (∀ j x, l !! j = Some x → (m <= x)%Q)
       ∧ (∀ j x, (j < i)%nat → l !! j = Some x → (m < x)%Q).

(** ** The data manager *)

Section Model.
Context {encoding : Type}.

(** The distance of two encodings, as [np.linalg.norm] of their
    difference gives it. *)
Context (dist : encoding → encoding → Q).

(** The value of [self.students[student_id]]. *)
Record student := {
  name : string;
  class : string;
  email : string;
  image_path : string;
  face_encoding : encoding;
  registration_date : string
}.

(** An instance of [AttendanceData] together with its two backing
    files. *)
Record AttendanceData := {
  students : dict student;
  attendance_records : list attendance_record;
  students_file : file (dict student);
  attendance_file : file (list attendance_record)
}.

Definition images_dir : string := "attendance_data/student_images".

Definition load_students (f : file (dict student)) : outcome (dict student) :=
  load [] f.

Definition load_attendance (f : file (list attendance_record))
  : outcome (list attendance_record) :=
  load [] f.

(** [AttendanceData.__init__] on the two backing files. *)
Definition init (sf : file (dict student)) (af : file (list attendance_record))
  : outcome AttendanceData :=
  match load_students sf with
  | Raised e => Raised e
  | Returned ss =>
      match load_attendance af with
      | Raised e => Raised e
      | Returned rs =>
          Returned {| students := ss; attendance_records := rs;
                      students_file := sf; attendance_file := af |}
      end
  end.

Definition save_students (w : write) (self : AttendanceData)
  : AttendanceData * outcome unit :=
  let '(f, o) := save (students self) w (students_file self) in
  ({| students := students self;
      attendance_records := attendance_records self;
      students_file := f;
      attendance_file := attendance_file self |}, o).

Definition save_attendance (w : write) (self : AttendanceData)
  : AttendanceData * outcome unit :=
  let '(f, o) := save (attendance_records self) w (attendance_file self) in
  ({| students := students self;
      attendance_records := attendance_records self;
      students_file := students_file self;
      attendance_file := f |}, o).

Definition set_students (ss : dict student) (self : AttendanceData) :=
  {| students := ss;
     attendance_records := attendance_records self;
     students_file := students_file self;
     attendance_file := attendance_file self |}.

Definition set_attendance_records (rs : list attendance_record)
    (self : AttendanceData) :=
  {| students := students self;
     attendance_records := rs;
     students_file := students_file self;
     attendance_file := attendance_file self |}.

(** *** Enrollment *)

(** An image is described by what
    [face_recognition.face_encodings(np.array(image))] does on it. *)
Definition image := outcome (list encoding).

Definition generate_face_encoding (image_array : image) : option encoding :=
  match image_array with
  | Returned (e :: _) => Some e          (* encodings[0] *)
  | Returned [] => None
  | Raised _ => None                     (* except Exception: st.error *)
  end.

(** [image.save(image_path)]: PIL takes the format from the extension of
    the path and raises [ValueError] for one it does not know; a path
    built by [register_student] ends in ".jpg", so its extension is
    ".jpg" or empty.  [photo] is what the writing of the file then does
    (it raises, for instance, when the directory of the path does not
    exist). *)
Definition image_save (image_path : string) (photo : outcome unit)
  : outcome unit :=
  if bool_decide (splitext_ext image_path = ".jpg") then photo
  else Raised ValueError.

(** [register_student]; [photo] is the outcome of writing the photo file
    and [now] the reading of [datetime.now()].  The conversion of the
    image to an RGB array is taken to succeed, and the photo files are
    not part of the state. *)
Definition register_student (student_id name class_name email : string)
    (img : image) (photo : outcome unit) (now : string) (w : write)
    (self : AttendanceData) : AttendanceData * outcome bool :=
  let image_path := path_join images_dir (student_id +:+ ".jpg") in
  match generate_face_encoding img with
  | Some face_encoding =>
      match image_save image_path photo with
      | Raised e => (self, Raised e)
      | Returned _ =>
          let self1 :=
            set_students
              (dict_set student_id
                 {| name := name; class := class_name; email := email;
                    image_path := image_path; face_encoding := face_encoding;
                    registration_date := now |}
                 (students self)) self in
          match save_students w self1 with
          | (self2, Returned _) => (self2, Returned true)
          | (self2, Raised e) => (self2, Raised e)
          end
      end
  | None => (self, Returned false)
  end.

(** What the registration form shows after a submission. *)
Inductive registration_message :=
| FillAllFields          (* "Please fill all required fields!" *)
| IdAlreadyExists        (* "Student ID already exists!" *)
| ProvidePhoto           (* "Please provide a photo!" *)
| Registered             (* "... registered successfully!" *)
| NoFaceDetected         (* "Failed to detect a face in the image ..." *)
| RegistrationFailed (e : exception).

(** The [if submitted:] branch of [student_registration_page].
    [image_buffer] is [None] when no photo was given, and otherwise
    what [Image.open] does on the buffer. *)
Definition submit_registration (student_id name class_name email : string)
    (image_buffer : option (outcome image)) (photo : outcome unit)
    (now : string) (w : write) (self : AttendanceData)
  : AttendanceData * registration_message :=
  if negb (truthy student_id && truthy name
           && negb (bool_decide (class_name = "Select Class")))
  then (self, FillAllFields)
  else if dict_mem student_id (students self) then (self, IdAlreadyExists)
  else match image_buffer with
       | None => (self, ProvidePhoto)
       | Some (Raised e) => (self, RegistrationFailed e)
       | Some (Returned img) =>
           match register_student (strip student_id) (strip name) class_name
                   (strip email) img photo now w self with
           | (self', Returned true) => (self', Registered)
           | (self', Returned false) => (self', NoFaceDetected)
           | (self', Raised e) => (self', RegistrationFailed e)
           end
       end.

(** *** Matching *)

(** [face_recognition.face_distance]: the distance of every known
    encoding to the candidate. *)
Definition face_distance (known_encodings : list encoding)
    (candidate : encoding) : list Q :=
  (λ k, dist k candidate) <$> known_encodings.

(** [face_recognition.compare_faces], which is
    [list(face_distance(known, candidate) <= tolerance)]. *)
Definition compare_faces (known_encodings : list encoding)
    (candidate : encoding) (tolerance : Q) : list bool :=
  (λ d, Qle_bool d tolerance) <$> face_distance known_encodings candidate.

(** The matching of one face in [mark_attendance], from [compare_faces]
    to the selection of [student_id]; [Returned None] when
    [matches[best_match_index]] is false. *)
Definition match_face (students : dict student) (candidate : encoding)
    (tolerance : Q) : outcome (option string) :=
  let known_encodings := face_encoding <$> dict_values students in
  let matches := compare_faces known_encodings candidate tolerance in
  let face_distances := face_distance known_encodings candidate in
  match argmin face_distances with
  | Raised e => Raised e
  | Returned best_match_index =>
      match matches !! best_match_index with
      | None => Raised IndexError
      | Some false => Returned None
      | Some true =>
          match dict_keys students !! best_match_index with
          | None => Raised IndexError
          | Some student_id => Returned (Some student_id)
          end
      end
  end.

(** Entry [i] of the store, [(sid, s)], is at minimum distance from the
    candidate, and every entry before it in iteration order is
    strictly farther. *)
Definition nearest (students : dict student) (candidate : encoding)
    (i : nat) (sid : string) (s : student) : Prop :=
  students !! i = Some (sid, s)
  ∧ (∀ j e, students !! j = Some e →
       (dist (face_encoding s) candidate
        <= dist (face_encoding e.2) candidate)%Q)
  ∧ (∀ j e, (j < i)%nat → students !! j = Some e →
       (dist (face_encoding s) candidate
        < dist (face_encoding e.2) candidate)%Q).

(** Entry [i] of the store is at minimum distance from the candidate. *)
Definition attains_min (students : dict student) (candidate : encoding)
    (i : nat) : Prop :=
  ∃ e, students !! i = Some e
       ∧ ∀ j e', students !! j = Some e' →
           (dist (face_encoding e.2) candidate
            <= dist (face_encoding e'.2) candidate)%Q.

(** *** The ledger *)

Definition already_marked (sid today : string)
    (records : list attendance_record) : bool :=
  existsb (λ r, bool_decide (student_id r = sid)
                && bool_decide (rec_date r = today)) records.

Inductive RecordOutcome := Recorded | AlreadyPresentToday.

(** The body of [if matches[best_match_index]:] once [student_data],
    [today] and the time of day are known. *)
Definition record_if_new (sid : string) (student_data : student)
    (today now : string) (records : list attendance_record)
  : RecordOutcome * list attendance_record :=
  if already_marked sid today records then (AlreadyPresentToday, records)
  else (Recorded,
        records ++ [ {| student_id := sid; rec_name := name student_data;
                        rec_class := class student_data; rec_date := today;
                        rec_time := now; status := "Present" |} ]).

(** How the [for] loop of [mark_attendance] ends. *)
Inductive loop_exit :=
| LoopDone (records : list attendance_record) (marked_students : list string)
| LoopReturn (records : list attendance_record)     (* [return []] *)
| LoopRaise (e : exception) (records : list attendance_record).

(** The ledger as the loop leaves it. *)
Definition exit_records (x : loop_exit) : list attendance_record :=
  match x with
  | LoopDone records _ | LoopReturn records | LoopRaise _ records => records
  end.

(** The tolerance that [mark_attendance] passes to [compare_faces]. *)
Definition tolerance : Q := 6 # 10.

(** The [for face_encoding in face_encodings] loop.  [clock i] is the
    pair of [date.today()] and [datetime.now()], both formatted, as read
    in iteration [i]. *)
Fixpoint mark_loop (students : dict student) (clock : nat → string * string)
    (i : nat) (face_encodings : list encoding)
    (records : list attendance_record) (marked_students : list string)
  : loop_exit :=
  match face_encodings with
  | [] => LoopDone records marked_students
  | candidate :: rest =>
      match dict_values students with
      | [] => LoopReturn records
      | _ =>
          match match_face students candidate tolerance with
          | Raised e => LoopRaise e records
          | Returned None =>
              mark_loop students clock (S i) rest records marked_students
          | Returned (Some sid) =>
              match dict_get sid students with
              | None => LoopRaise KeyError records
              | Some student_data =>
                  match record_if_new sid student_data
                          (clock i).1 (clock i).2 records with
                  | (Recorded, records') =>
                      mark_loop students clock (S i) rest records'
                        (marked_students ++ [name student_data])
                  | (AlreadyPresentToday, records') =>
                      mark_loop students clock (S i) rest records'
                        marked_students
                  end
              end
          end
      end
  end.

(** What [mark_attendance] gives back: the list it returns and the
    exception it reported with [st.error], if any. *)
Record capture_result := {
  returned : list string;
  reported : option exception
}.

(** [list(set(xs))]: the distinct elements of [xs]; the order in which
    CPython lists them is not modelled. *)
Definition list_set (xs : list string) : list string :=
  elements (list_to_set xs : gset string).

Definition mark_attendance (img : image) (clock : nat → string * string)
    (w : write) (self : AttendanceData) : AttendanceData * capture_result :=
  match img with
  | Raised e => (self, {| returned := []; reported := Some e |})
  | Returned face_encodings =>
      match mark_loop (students self) clock 0 face_encodings
              (attendance_records self) [] with
      | LoopReturn records =>
          (set_attendance_records records self,
           {| returned := []; reported := None |})
      | LoopRaise e records =>
          (set_attendance_records records self,
           {| returned := []; reported := Some e |})
      | LoopDone records [] =>
          (set_attendance_records records self,
           {| returned := []; reported := None |})
      | LoopDone records marked_students =>
          match save_attendance w (set_attendance_records records self) with
          | (self', Returned _) =>
              (self', {| returned := list_set marked_students;
                         reported := None |})
          | (self', Raised e) =>
              (self', {| returned := []; reported := Some e |})
          end
      end
  end.

(** *** Aggregation *)

(** [{r['student_id'] for r in self.attendance_records if r['date'] == d}] *)
Definition present_ids (d : string) (records : list attendance_record)
  : gset string :=
  list_to_set (student_id <$> filter (λ r, rec_date r = d) records).

Record stats := {
  total_students : Z;
  present_today : Z;
  absent_today : Z;
  attendance_rate : Q
}.

(** [get_attendance_stats]; [today] is the formatted [date.today()].
    [present_count / total_students] is the quotient of the two integers
    rounded once, and its product with 100 is rounded again. *)
Definition get_attendance_stats (today : string) (self : AttendanceData)
  : stats :=
  let present_today_ids := present_ids today (attendance_records self) in
  let total := Z.of_nat (length (students self)) in
  let present_count := Z.of_nat (size present_today_ids) in
  {| total_students := total;
     present_today := present_count;
     absent_today := total - present_count;
     attendance_rate :=
       if (0 <? total)%Z
       then round64 (round64 (inject_Z present_count / inject_Z total) * 100)
       else 0 |}.

Record report_row := {
  row_student_id : string;
  row_name : string;
  row_class : string;
  row_status : string
}.

(** The rows that [attendance_reports_page] collects in [report_data]. *)
Definition report_data (date_str selected_class : string)
    (self : AttendanceData) : list report_row :=
  let present_students := present_ids date_str (attendance_records self) in
  '(sid, student_data) ← students self;
  if bool_decide (selected_class = "All Classes")
     || bool_decide (class student_data = selected_class)
  then [ {| row_student_id := sid;
            row_name := name student_data;
            row_class := class student_data;
            row_status := if bool_decide (sid ∈ present_students)
                          then "Present" else "Absent" |} ]
  else [].

(** *** Settings page *)

(** The button "Clear All Attendance Records". *)
Definition clear_all_attendance (w : write) (self : AttendanceData)
  : AttendanceData * outcome unit :=
  save_attendance w (set_attendance_records [] self).

(** The confirmed "Reset All Data": both collections are emptied, then
    saved one after the other. *)
Definition reset_all_data (w1 w2 : write) (self : AttendanceData)
  : AttendanceData * outcome unit :=
  let self1 := set_attendance_records [] (set_students [] self) in
  match save_students w1 self1 with
  | (self2, Raised e) => (self2, Raised e)
  | (self2, Returned _) => save_attendance w2 self2
  end.

(** *** Sequences of operations *)

Inductive command :=
| Submit (student_id name class_name email : string)
    (image_buffer : option (outcome image)) (photo : outcome unit)
    (now : string) (w : write)
| Capture (img : image) (clock : nat → string * string) (w : write)
| ClearAttendance (w : write)
| ResetAll (w1 w2 : write).

Definition exec (c : command) (self : AttendanceData) : AttendanceData :=
  match c with
  | Submit student_id name class_name email image_buffer photo now w =>
      (submit_registration student_id name class_name email image_buffer
         photo now w self).1
  | Capture img clock w => (mark_attendance img clock w self).1
  | ClearAttendance w => (clear_all_attendance w self).1
  | ResetAll w1 w2 => (reset_all_data w1 w2 self).1
  end.

Definition run (cs : list command) (self : AttendanceData) : AttendanceData :=
  foldl (λ s c, exec c s) self cs.

(** The events of the ledger for one identity on one date. *)
Definition events_for (sid d : string) (records : list attendance_record)
  : list attendance_record :=
  filter (λ r, student_id r = sid ∧ rec_date r = d) records.

(** At most one event for every identity and date. *)
Definition deduplicated (records : list attendance_record) : Prop :=
  ∀ sid d, (length (events_for sid d records) ≤ 1)%nat.

(** The report row of an entry of the store: its key, name and class,
    and "Present" exactly when the ledger has an event for the key on
    the date. *)
Definition row_of (date_str : string) (records : list attendance_record)
    (e : string * student) : report_row :=
  {| row_student_id := e.1;
     row_name := name e.2;
     row_class := class e.2;
     row_status := if decide (events_for e.1 date_str records = [])
                   then "Absent" else "Present" |}.
End Model.

Arguments student : clear implicits.
Arguments AttendanceData : clear implicits.
Arguments image : clear implicits.
Arguments command : clear implicits.

(** ** The pages around the data manager *)

Section Pages.
Context {encoding : Type}.

(** [today_attendance] of [mark_attendance_page]: the events that the
    table "Today's Attendance" shows. *)
Definition today_attendance (today : string) (self : AttendanceData encoding)
  : list attendance_record :=
  filter (λ r, rec_date r = today) (attendance_records self).

(** [sorted(xs)] on strings, which Python compares code point by code
    point. *)
Definition sorted (xs : list string) : list string :=
  merge_sort String.le xs.

(** The choices of "Filter by Class" in [attendance_reports_page]. *)
Definition classes (self : AttendanceData encoding) : list string :=
  "All Classes"
  :: sorted (list_set (class <$> dict_values (students self))).

(** What the report column of [attendance_reports_page] shows. *)
Inductive report_view :=
| NoStudentsFound          (* "No students found for the selected filter." *)
| NoRecords                (* "No records to display (e.g., no absentees)." *)
| ReportTable (df : list report_row).   (* the table and its download *)

(** The part of [attendance_reports_page] from [if not report_data:] on;
    the rows of the data frame stand for the frame, and the Excel export
    of the rows shown is not modelled. *)
Definition attendance_report (date_str selected_class report_type : string)
    (self : AttendanceData encoding) : report_view :=
  match report_data date_str selected_class self with
  | [] => NoStudentsFound
  | rows =>
      let df := if bool_decide (report_type = "Absentees Only")
                then filter (λ row, row_status row = "Absent") rows
                else rows in
      match df with
      | [] => NoRecords
      | _ => ReportTable df
      end
  end.

(** A click on one of the buttons of [system_settings_page]. *)
Inductive click :=
| PressClear (w : write)          (* "Clear All Attendance Records" *)
| PressReset                      (* "Reset All Data" *)
| PressYes (w1 w2 : write)        (* "YES, I AM SURE" *)
| PressCancel.                    (* "CANCEL" *)

(** One run of [system_settings_page] on a click.  The boolean is
    ["confirm_reset" in st.session_state]; the key is only ever bound to
    [True].  The two confirmation buttons exist only while it is bound.
    The removal of the photo files after a reset is taken to succeed. *)
Definition settings_click (c : click) (st : bool * AttendanceData encoding)
  : bool * AttendanceData encoding :=
  let '(confirm_reset, self) := st in
  match c with
  | PressClear w => (confirm_reset, (clear_all_attendance w self).1)
  | PressReset => (true, self)
  | PressYes w1 w2 =>
      if confirm_reset then
        match reset_all_data w1 w2 self with
        | (self', Returned _) => (false, self')    (* del confirm_reset *)
        | (self', Raised _) => (true, self')
        end
      else (confirm_reset, self)
  | PressCancel => if confirm_reset then (false, self) else (confirm_reset, self)
  end.

Definition settings_clicks (cs : list click) (st : bool * AttendanceData encoding)
  : bool * AttendanceData encoding :=
  foldl (λ s c, settings_click c s) st cs.

(** The click confirms a pending reset. *)
Definition is_yes (c : click) : bool :=
  match c with PressYes _ _ => true | _ => false end.

(** Every write of the command reaches its file. *)
Definition flushed (c : command encoding) : bool :=
  match c with
  | Submit _ _ _ _ _ _ _ Flushed | Capture _ _ Flushed
  | ClearAttendance Flushed | ResetAll Flushed Flushed => true
  | _ => false
  end.

(** The backing files load as the state in memory. *)
Definition synced (self : AttendanceData encoding) : Prop :=
  load_students (students_file self) = Returned (students self)
  ∧ load_attendance (attendance_file self) = Returned (attendance_records self).

(** Every event of the ledger refers to an enrolled key and has the
    status "Present". *)
Definition referenced (students : dict (student encoding))
    (records : list attendance_record) : Prop :=
  ∀ r, r ∈ records → student_id r ∈ dict_keys students ∧ status r = "Present".

(** The event [r] carries the name and class that the store holds for
    its key, the status "Present", and the date and time read from the
    clock in an iteration from [lo] up to, but not including, [hi]. *)
Definition recorded_from (students : dict (student encoding))
    (clock : nat → string * string) (lo hi : nat) (r : attendance_record)
  : Prop :=
  ∃ sd j,
    dict_get (student_id r) students = Some sd
    ∧ rec_name r = name sd ∧ rec_class r = class sd
    ∧ status r = "Present"
    ∧ rec_date r = (clock j).1 ∧ rec_time r = (clock j).2
    ∧ (lo ≤ j < hi)%nat.
End Pages.

(** ** Sample data

    One-dimensional encodings, for which the Euclidean distance is the
    absolute value of the difference. *)

Module Sample.
Definition dist1 (a b : Q) : Q := Qabs (a - b).

Definition enrolled (nm cls : string) (e : Q) : student Q :=
  {| name := nm; class := cls; email := "student@school.edu";
     image_path := "attendance_data/student_images/photo.jpg";
     face_encoding := e; registration_date := "2025-10-08 09:00:00" |}.

(** Two identities at distances 0.2 and 0.8 from the candidate 0. *)
Definition near_far : dict (student Q) :=
  [("S1", enrolled "Alice" "Class 10A" (2 # 10));
   ("S2", enrolled "Bob" "Class 10A" (8 # 10))].

(** One identity at distance 0.6 from the candidate 0. *)
Definition at_tolerance : dict (student Q) :=
  [("S1", enrolled "Alice" "Class 10A" (6 # 10))].

(** Two identities with one display name. *)
Definition namesakes : dict (student Q) :=
  [("S1", enrolled "Alex" "Class 10A" 0);
   ("S2", enrolled "Alex" "Class 10B" 5)].

Definition manager (ss : dict (student Q)) (rs : list attendance_record)
  : AttendanceData Q :=
  {| students := ss; attendance_records := rs;
     students_file := Pickle ss; attendance_file := Pickle rs |}.

Definition clock0 (i : nat) : string * string := ("2025-10-08", "09:30:00").

Definition event (sid nm cls d t : string) : attendance_record :=
  {| student_id := sid; rec_name := nm; rec_class := cls; rec_date := d;
     rec_time := t; status := "Present" |}.

(** An identity at distance 0.8 followed by two at distance 0.2. *)
Definition far_then_tied : dict (student Q) :=
  [("S0", enrolled "Carol" "Class 9A" (8 # 10));
   ("S1", enrolled "Alice" "Class 10A" (2 # 10));
   ("S2", enrolled "Bob" "Class 10A" (- 2 # 10))].

(** Alice and Bob enrolled, nothing recorded. *)
Definition fresh : AttendanceData Q := manager near_far [].

(** Alice and Bob enrolled, Alice recorded on 2025-10-08. *)
Definition alice_present : AttendanceData Q :=
  manager near_far [event "S1" "Alice" "Class 10A" "2025-10-08" "09:30:00"].

(** A capture of one face next to Alice's encoding. *)
Definition one_capture : list (command Q) :=
  [Capture (Returned [0%Q]) clock0 Flushed].

(** The enrollment of a third student while the students file cannot
    be written. *)
Definition refused_registration : AttendanceData Q * outcome bool :=
  register_student "S3" "Carol" "Class 9A" "carol@school.edu" (Returned [1%Q])
    (Returned tt) "2025-10-09 08:00:00" Refused fresh.

(** A capture of both namesakes while the attendance file cannot be
    written. *)
Definition refused_capture : AttendanceData Q * capture_result :=
  mark_attendance dist1 (Returned [0; 5]%Q) clock0 Refused
    (manager namesakes []).

(** The same capture with a working file. *)
Definition namesakes_capture : AttendanceData Q * capture_result :=
  mark_attendance dist1 (Returned [0; 5]%Q) clock0 Flushed
    (manager namesakes []).
End Sample.

(** ** More sample data *)

Module Cases.
Definition alice : student Q := Sample.enrolled "Alice" "Class 10A" (2 # 10).

Definition alice_event : attendance_record :=
  Sample.event "S1" "Alice" "Class 10A" "2025-10-08" "09:30:00".

(** The data manager as started from a students file with Alice and Bob
    and no attendance file. *)
Definition started : AttendanceData Q :=
  {| students := Sample.near_far; attendance_records := [];
     students_file := Pickle Sample.near_far; attendance_file := NoFile |}.

(** A submission for the key "S1", which is taken. *)
Definition taken_key : AttendanceData Q * registration_message :=
  submit_registration "S1" "Mallory" "Class 9A" "m@school.edu"
    (Some (Returned (Returned [1%Q]))) (Returned tt) "2025-10-09 08:00:00"
    Flushed Sample.fresh.

(** A submission for a new key typed with blanks around it. *)
Definition new_key : AttendanceData Q * registration_message :=
  submit_registration " S3 " " Carol " "Class 9A" "carol@school.edu "
    (Some (Returned (Returned [1%Q]))) (Returned tt) "2025-10-09 08:00:00"
    Flushed Sample.fresh.

(** A submission whose identifier is two blanks. *)
Definition blank_key : AttendanceData Q * registration_message :=
  submit_registration "  " "Carol" "Class 9A" "carol@school.edu"
    (Some (Returned (Returned [1%Q]))) (Returned tt) "2025-10-09 08:00:00"
    Flushed Sample.fresh.

(** A capture of one face far from Alice and Bob. *)
Definition stranger_capture : AttendanceData Q * capture_result :=
  mark_attendance Sample.dist1 (Returned [3%Q]) Sample.clock0 Flushed
    Sample.fresh.

(** A capture of one face next to Alice. *)
Definition alice_capture : AttendanceData Q * capture_result :=
  mark_attendance Sample.dist1 (Returned [0%Q]) Sample.clock0 Flushed
    Sample.fresh.

Definition settings_tour : list click :=
  [PressClear Flushed; PressReset; PressCancel].

(** Three enrolled, one of them recorded on 2025-10-08. *)
Definition one_of_three : AttendanceData Q :=
  Sample.manager Sample.far_then_tied [alice_event].

(** The enrollment of a third student while the write of the students
    file fails after the file was opened. *)
Definition torn_registration : AttendanceData Q * outcome bool :=
  register_student "S3" "Carol" "Class 9A" "carol@school.edu" (Returned [1%Q])
    (Returned tt) "2025-10-09 08:00:00" (Torn true) Sample.fresh.
End Cases.

(** ** Properties of [argmin] *)

Lemma Qlt_bool_true x y : Qlt_bool x y = true → (x < y)%Q.
Proof.
  unfold Qlt_bool. intros H. apply Qnot_le_lt. intros Hle.
  apply Qle_bool_iff in Hle. rewrite Hle in H. discriminate.
Qed.

Lemma Qlt_bool_false x y : Qlt_bool x y = false → (y <= x)%Q.
Proof.
  unfold Qlt_bool. intros H. apply Qle_bool_iff.
  destruct (Qle_bool y x); [done | discriminate].
Qed.

Lemma argmin_from_first_min (l pre : list Q) (best : nat) (m : Q) :
  pre !! best = Some m →
  (∀ j x, pre !! j = Some x → (m <= x)%Q) →
  (∀ j x, (j < best)%nat → pre !! j = Some x → (m < x)%Q) →
  first_min (pre ++ l) (argmin_from (length pre) best m l).
Proof.
  revert pre best m.
  induction l as [|d l IH]; intros pre best m Hbest Hmin Hfirst; simpl.
  { rewrite app_nil_r. by exists m. }
  assert (Hlen : length (pre ++ [d]) = S (length pre))
    by (rewrite length_app; simpl; lia).
  assert (Hlast : ∀ j x, (pre ++ [d]) !! j = Some x →
                         pre !! j = Some x ∨ x = d).
  { intros j x Hj. apply lookup_app_Some in Hj as [Hj | [_ Hj]]; [by left|].
    right. destruct (j - length pre)%nat; by simplify_eq/=. }
  destruct (Qlt_bool d m) eqn:Hlt.
  - apply Qlt_bool_true in Hlt.
    specialize (IH (pre ++ [d]) (length pre) d).
    rewrite Hlen, <- app_assoc in IH. apply IH.
    + by rewrite lookup_app_r, Nat.sub_diag by lia.
    + intros j x [Hj | ->]%Hlast; [|apply Qle_refl].
      eapply Qle_trans; [apply Qlt_le_weak, Hlt | eauto].
    + intros j x Hjl Hj. rewrite lookup_app_l in Hj by done.
      eapply Qlt_le_trans; [apply Hlt | eauto].
  - apply Qlt_bool_false in Hlt.
    specialize (IH (pre ++ [d]) best m).
    rewrite Hlen, <- app_assoc in IH. apply IH.
    + rewrite lookup_app_l; [done | by eapply lookup_lt_Some].
    + intros j x [Hj | ->]%Hlast; eauto.
    + intros j x Hjl Hj.
      rewrite lookup_app_l in Hj by (apply lookup_lt_Some in Hbest; lia).
      eauto.
Qed.

Lemma argmin_first_min (l : list Q) :
  l ≠ [] → ∃ i, argmin l = Returned i ∧ first_min l i.
Proof.
  destruct l as [|d l]; [done | intros _].
  eexists; split; [reflexivity|].
  apply (argmin_from_first_min l [d] 0 d); [done | |].
  - intros [|j] x Hj; simplify_eq/=. apply Qle_refl.
  - intros j x Hj. lia.
Qed.

Lemma first_min_unique (l : list Q) (i j : nat) :
  first_min l i → first_min l j → i = j.
Proof.
  intros (mi & Hi & Hmi & Hfi) (mj & Hj & Hmj & Hfj).
  destruct (lt_eq_lt_dec i j) as [[Hlt | ->] | Hlt]; [|done|].
  - exfalso. apply (Qlt_irrefl mj).
    eapply Qlt_le_trans; [apply (Hfj i mi Hlt Hi) | apply (Hmi j mj Hj)].
  - exfalso. apply (Qlt_irrefl mi).
    eapply Qlt_le_trans; [apply (Hfi j mj Hlt Hj) | apply (Hmj i mi Hi)].
Qed.

Lemma argmin_is_first_min (l : list Q) (i : nat) :
  first_min l i → argmin l = Returned i.
Proof.
  intros Hi.
  assert (l ≠ []) as Hne.
  { destruct Hi as (m & Hm & _). intros ->. by rewrite lookup_nil in Hm. }
  destruct (argmin_first_min l Hne) as (j & -> & Hj).
  f_equal. eauto using first_min_unique.
Qed.

(** ** The matcher *)

Section Matcher.
Context {encoding : Type} (dist : encoding → encoding → Q).

Implicit Types (students : dict (student encoding)) (candidate : encoding).

Lemma face_distance_lookup students candidate j :
  face_distance dist (face_encoding <$> dict_values students) candidate !! j
  = (λ e, dist (face_encoding e.2) candidate) <$> students !! j.
Proof.
  unfold face_distance, dict_values. rewrite !list_lookup_fmap.
  by destruct (students !! j).
Qed.

Lemma nearest_first_min students candidate i sid s :
  nearest dist students candidate i sid s →
  first_min
    (face_distance dist (face_encoding <$> dict_values students) candidate) i.
Proof.
  intros (Hi & Hmin & Hfirst).
  exists (dist (face_encoding s) candidate). split_and!.
  - by rewrite face_distance_lookup, Hi.
  - intros j x. rewrite face_distance_lookup.
    destruct (students !! j) as [e|] eqn:Hj; intros; simplify_eq/=; eauto.
  - intros j x Hlt. rewrite face_distance_lookup.
    destruct (students !! j) as [e|] eqn:Hj; intros; simplify_eq/=; eauto.
Qed.

Lemma first_min_nearest students candidate i :
  first_min
    (face_distance dist (face_encoding <$> dict_values students) candidate) i →
  ∃ sid s, nearest dist students candidate i sid s.
Proof.
  intros (m & Hi & Hmin & Hfirst).
  rewrite face_distance_lookup in Hi.
  destruct (students !! i) as [[sid s]|] eqn:Hs; simplify_eq/=.
  exists sid, s. split_and!; [done | |].
  - intros j e Hj. apply (Hmin j).
    by rewrite face_distance_lookup, Hj.
  - intros j e Hlt Hj. apply (Hfirst j); [done|].
    by rewrite face_distance_lookup, Hj.
Qed.

Lemma nearest_exists students candidate :
  students ≠ [] → ∃ i sid s, nearest dist students candidate i sid s.
Proof.
  intros Hne.
  destruct (argmin_first_min
              (face_distance dist (face_encoding <$> dict_values students)
                 candidate)) as (i & _ & Hi).
  { destruct students; [done | discriminate]. }
  exists i. by apply first_min_nearest.
Qed.

Lemma nearest_attains_min students candidate i sid s :
  students !! i = Some (sid, s) →
  attains_min dist students candidate i →
  (∀ k, (k < i)%nat → ¬ attains_min dist students candidate k) →
  nearest dist students candidate i sid s.
Proof.
  intros Hi (e & He & Hmin) Hfirst. simplify_eq/=.
  split_and!; [done | eauto |].
  intros j e Hlt Hj.
  destruct (Qlt_le_dec (dist (face_encoding s) candidate)
              (dist (face_encoding e.2) candidate)) as [|Hle]; [done|].
  destruct (Hfirst j Hlt). exists e. split; [done|].
  intros k e' Hk. eapply Qle_trans; [apply Hle | eauto].
Qed.

(** What [match_face] returns, given the nearest entry. *)
Lemma match_face_nearest students candidate tol i sid s :
  nearest dist students candidate i sid s →
  argmin (face_distance dist (face_encoding <$> dict_values students)
            candidate) = Returned i
  ∧ match_face dist students candidate tol
    = Returned (if Qle_bool (dist (face_encoding s) candidate) tol
                then Some sid else None).
Proof.
  intros Hn.
  pose proof (argmin_is_first_min _ _ (nearest_first_min _ _ _ _ _ Hn)) as Ha.
  split; [done|].
  destruct Hn as (Hi & _ & _).
  unfold match_face. rewrite Ha.
  unfold compare_faces. rewrite list_lookup_fmap, face_distance_lookup, Hi.
  simpl. destruct (Qle_bool _ tol); [|done].
  unfold dict_keys. by rewrite list_lookup_fmap, Hi.
Qed.

Lemma match_face_cases students candidate tol i sid s :
  nearest dist students candidate i sid s →
  ((dist (face_encoding s) candidate <= tol)%Q →
     match_face dist students candidate tol = Returned (Some sid))
  ∧ ((tol < dist (face_encoding s) candidate)%Q →
     match_face dist students candidate tol = Returned None).
Proof.
  intros Hn.
  destruct (match_face_nearest students candidate tol i sid s Hn) as [_ ->].
  split; intros H.
  - apply Qle_bool_iff in H. by rewrite H.
  - destruct (Qle_bool _ tol) eqn:Hle; [|done].
    apply Qle_bool_iff in Hle. destruct (Qlt_not_le _ _ H Hle).
Qed.

(** C2, amended: on a non-empty store the matcher selects the entry at
    minimum distance from the candidate (the first one of them) and
    returns its key if that distance is at most the tolerance, and no
    match if it is above; so entries at distances 0.2 and 0.8 give the
    key of the first one under tolerance 0.6 and no match under
    tolerance 0.1. *)
Theorem match_face_within_tolerance :
  (∀ students candidate tol,
     students ≠ [] →
     ∃ i sid s,
       nearest dist students candidate i sid s
       ∧ ((dist (face_encoding s) candidate <= tol)%Q →
            match_face dist students candidate tol = Returned (Some sid))
       ∧ ((tol < dist (face_encoding s) candidate)%Q →
            match_face dist students candidate tol = Returned None))
  ∧ (∀ k1 s1 k2 s2 candidate,
       (dist (face_encoding s1) candidate == 2 # 10)%Q →
       (dist (face_encoding s2) candidate == 8 # 10)%Q →
       match_face dist [(k1, s1); (k2, s2)] candidate (6 # 10)
         = Returned (Some k1)
       ∧ match_face dist [(k2, s2); (k1, s1)] candidate (6 # 10)
         = Returned (Some k1)
       ∧ match_face dist [(k1, s1); (k2, s2)] candidate (1 # 10)
         = Returned None
       ∧ match_face dist [(k2, s2); (k1, s1)] candidate (1 # 10)
         = Returned None).
Proof.
  split.
  - intros students candidate tol Hne.
    destruct (nearest_exists students candidate Hne) as (i & sid & s & Hn).
    exists i, sid, s. split; [done|]. by apply (match_face_cases _ _ _ i).
  - intros k1 s1 k2 s2 candidate H1 H2.
    assert (Hlt : (dist (face_encoding s1) candidate
                   < dist (face_encoding s2) candidate)%Q)
      by (rewrite H1, H2; reflexivity).
    assert (Hn1 : nearest dist [(k1, s1); (k2, s2)] candidate 0 k1 s1).
    { split_and!; [done | |].
      - intros [|[|j]] e He; simplify_eq/=;
          [apply Qle_refl | by apply Qlt_le_weak].
      - intros j e Hj. lia. }
    assert (Hn2 : nearest dist [(k2, s2); (k1, s1)] candidate 1 k1 s1).
    { split_and!; [done | |].
      - intros [|[|j]] e He; simplify_eq/=;
          [by apply Qlt_le_weak | apply Qle_refl].
      - intros [|j] e Hj He; simplify_eq/=; [done | lia]. }
    destruct (match_face_cases _ _ (6 # 10) _ _ _ Hn1) as [Ha1 _].
    destruct (match_face_cases _ _ (6 # 10) _ _ _ Hn2) as [Ha2 _].
    destruct (match_face_cases _ _ (1 # 10) _ _ _ Hn1) as [_ Hr1].
    destruct (match_face_cases _ _ (1 # 10) _ _ _ Hn2) as [_ Hr2].
    rewrite Ha1, Ha2, Hr1, Hr2 by (by rewrite H1). done.
Qed.

(** C8: when entry [i] attains the minimum distance to the candidate
    and no earlier entry of the store does, [np.argmin] selects index
    [i], whatever later entries attain the same distance, and the key
    returned on acceptance is the key of entry [i]. *)
Theorem match_face_first_of_ties students candidate tol i sid s :
  students !! i = Some (sid, s) →
  attains_min dist students candidate i →
  (∀ k, (k < i)%nat → ¬ attains_min dist students candidate k) →
  argmin (face_distance dist (face_encoding <$> dict_values students)
            candidate) = Returned i
  ∧ ((dist (face_encoding s) candidate <= tol)%Q →
       match_face dist students candidate tol = Returned (Some sid))
  ∧ ((tol < dist (face_encoding s) candidate)%Q →
       match_face dist students candidate tol = Returned None).
Proof.
  intros Hi Hmin Hfirst.
  pose proof (nearest_attains_min _ _ _ _ _ Hi Hmin Hfirst) as Hn.
  split; [by apply (match_face_nearest _ _ tol _ _ _ Hn)|].
  by apply (match_face_cases _ _ _ i).
Qed.
End Matcher.

(** ** The ledger *)

Section Ledger.
Context {encoding : Type} (dist : encoding → encoding → Q).

Implicit Types (records : list attendance_record).
Implicit Types (self : AttendanceData encoding).

Lemma already_marked_events sid today records :
  already_marked sid today records = false
  ↔ events_for sid today records = [].
Proof.
  unfold already_marked, events_for.
  induction records as [|r records IH]; [done|].
  simpl. rewrite filter_cons. case_decide as Hr.
  - destruct Hr as [-> ->]. rewrite !bool_decide_eq_true_2 by done.
    simpl. split; discriminate.
  - rewrite <- IH.
    destruct (bool_decide (student_id r = sid)) eqn:H1,
             (bool_decide (rec_date r = today)) eqn:H2; simpl; try done.
    apply bool_decide_eq_true in H1, H2. tauto.
Qed.

Lemma events_for_app sid d records records' :
  events_for sid d (records ++ records')
  = events_for sid d records ++ events_for sid d records'.
Proof. apply filter_app. Qed.

Lemma events_for_singleton sid d r :
  events_for sid d [r]
  = if decide (student_id r = sid ∧ rec_date r = d) then [r] else [].
Proof. unfold events_for. rewrite filter_cons. by case_decide. Qed.

Lemma record_if_new_deduplicated sid student_data today now records :
  deduplicated records →
  deduplicated
    (record_if_new (encoding:=encoding) sid student_data today now records).2.
Proof.
  intros Hd. unfold record_if_new.
  destruct (already_marked sid today records) eqn:Hm; [done|].
  apply already_marked_events in Hm. simpl.
  intros sid' d. rewrite events_for_app, events_for_singleton, length_app.
  case_decide as Heq; simpl; [|specialize (Hd sid' d); lia].
  simpl in Heq. destruct Heq as [<- <-]. rewrite Hm. simpl. lia.
Qed.

Lemma mark_loop_deduplicated students clock faces :
  ∀ i records marked,
    deduplicated records →
    deduplicated
      (exit_records (mark_loop dist students clock i faces records marked)).
Proof.
  induction faces as [|candidate rest IH]; intros i records marked Hd;
    simpl; [done|].
  destruct (dict_values students); [done|].
  destruct (match_face dist students candidate tolerance) as [[sid|]|];
    [| by apply IH | done].
  destruct (dict_get sid students) as [student_data|]; [|done].
  pose proof (record_if_new_deduplicated sid student_data
                (clock i).1 (clock i).2 records Hd) as Hd'.
  destruct (record_if_new sid student_data (clock i).1 (clock i).2 records)
    as [[] records']; by apply IH.
Qed.

Lemma mark_attendance_deduplicated img clock w self :
  deduplicated (attendance_records self) →
  deduplicated (attendance_records (mark_attendance dist img clock w self).1).
Proof.
  intros Hd. unfold mark_attendance.
  destruct img as [faces|]; [|done].
  pose proof (mark_loop_deduplicated (students self) clock faces 0
                (attendance_records self) [] Hd) as Hd'.
  destruct (mark_loop dist (students self) clock 0 faces
              (attendance_records self) []) as [records [|n marked]| |];
    try done.
  by destruct w.
Qed.

Lemma register_student_records sid nm cls em img photo now w self :
  attendance_records (register_student sid nm cls em img photo now w self).1
  = attendance_records self.
Proof.
  unfold register_student.
  destruct (generate_face_encoding img); [|done].
  destruct (image_save _ photo); [|done]. by destruct w.
Qed.

Lemma submit_registration_records sid nm cls em buf photo now w self :
  attendance_records (submit_registration sid nm cls em buf photo now w self).1
  = attendance_records self.
Proof.
  unfold submit_registration.
  repeat (case_match; try done);
    match goal with
    | H : register_student ?a ?b ?c ?d ?e ?f ?g ?h ?i = _ |- _ =>
        pose proof (register_student_records a b c d e f g h i) as Hr;
        rewrite H in Hr; exact Hr
    end.
Qed.

Lemma deduplicated_nil : deduplicated [].
Proof. intros sid d. simpl. lia. Qed.

Lemma exec_deduplicated c self :
  deduplicated (attendance_records self) →
  deduplicated (attendance_records (exec dist c self)).
Proof.
  intros Hd.
  destruct c as [sid nm cls em buf photo now w|img clock w|w|w1 w2]; simpl.
  - by rewrite submit_registration_records.
  - by apply mark_attendance_deduplicated.
  - destruct w; apply deduplicated_nil.
  - destruct w1, w2; apply deduplicated_nil.
Qed.

Lemma run_deduplicated cs self :
  deduplicated (attendance_records self) →
  deduplicated (attendance_records (run dist cs self)).
Proof.
  revert self. induction cs as [|c cs IH]; intros self Hd; [done|].
  simpl. apply IH. by apply exec_deduplicated.
Qed.

(** C1: from a ledger without duplicates, after every sequence of
    operations the ledger holds at most one event for every identity
    and date; there, recording the same identity and date twice makes
    the second call answer [AlreadyPresentToday] and append nothing,
    leaves exactly one event for the pair, and the first call answers
    [Recorded] when the pair had no event. *)
Theorem record_if_new_once (cs : list (command encoding)) self
    (sid today now now' : string) (student_data student_data' : student encoding) :
  deduplicated (attendance_records self) →
  let records := attendance_records (run dist cs self) in
  let first := record_if_new sid student_data today now records in
  let second := record_if_new sid student_data' today now' first.2 in
  deduplicated records
  ∧ deduplicated second.2
  ∧ (events_for sid today records = [] → first.1 = Recorded)
  ∧ second = (AlreadyPresentToday, first.2)
  ∧ length (events_for sid today second.2) = 1%nat.
Proof.
  intros Hd records first second.
  assert (Hr : deduplicated records) by by apply run_deduplicated.
  assert (Hf : deduplicated first.2) by by apply record_if_new_deduplicated.
  assert (Hone : length (events_for sid today first.2) = 1%nat
                 ∧ (events_for sid today records = [] → first.1 = Recorded)).
  { subst first. unfold record_if_new.
    destruct (already_marked sid today records) eqn:Hm; simpl.
    - split.
      + specialize (Hr sid today).
        destruct (events_for sid today records) as [|r [|r' l]] eqn:He;
          simpl in *; [|done|lia].
        apply already_marked_events in He. congruence.
      + intros He. apply already_marked_events in He. congruence.
    - apply already_marked_events in Hm.
      rewrite events_for_app, events_for_singleton, Hm.
      by rewrite decide_True. }
  destruct Hone as [Hone Hrec].
  assert (Hs : second = (AlreadyPresentToday, first.2)).
  { subst second. unfold record_if_new at 1.
    destruct (already_marked sid today first.2) eqn:Hm; [done|].
    apply already_marked_events in Hm. rewrite Hm in Hone. done. }
  split_and!; try done.
  - by rewrite Hs.
  - by rewrite Hs.
Qed.
End Ledger.

(** ** Attendance capture *)

Section Capture.
Context {encoding : Type} (dist : encoding → encoding → Q).

Implicit Types (records : list attendance_record).
Implicit Types (self : AttendanceData encoding).

(** The loop only appends to the ledger, and the names it collects
    are the names of the events it appended, in order. *)
Lemma mark_loop_appends students clock faces :
  ∀ i records marked,
    ∃ new,
      exit_records (mark_loop dist students clock i faces records marked)
      = records ++ new
      ∧ match mark_loop dist students clock i faces records marked with
        | LoopDone _ marked' => marked' = marked ++ (rec_name <$> new)
        | LoopReturn _ => new = [] ∧ dict_values students = []
        | LoopRaise _ _ => True
        end.
Proof.
  induction faces as [|candidate rest IH]; intros i records marked; simpl.
  { exists []. by rewrite !app_nil_r. }
  destruct (dict_values students) as [|v vs] eqn:Hv.
  { exists []. by rewrite app_nil_r. }
  destruct (match_face dist students candidate tolerance) as [[sid|]|].
  - destruct (dict_get sid students) as [student_data|].
    + unfold record_if_new.
      destruct (already_marked sid (clock i).1 records).
      * destruct (IH (S i) records marked) as (new & Hnew & Hm).
        exists new. split; [done|].
        destruct (mark_loop _ _ _ _ _ _ _); [done | | done].
        by destruct Hm.
      * match goal with
        | |- context [mark_loop _ _ _ _ _ (records ++ [?r]) ?m] =>
            destruct (IH (S i) (records ++ [r]) m) as (new & Hnew & Hm);
            exists (r :: new)
        end.
        rewrite Hnew, <- app_assoc. split; [done|].
        destruct (mark_loop _ _ _ _ _ _ _); [| by destruct Hm | done].
        by rewrite Hm, <- app_assoc.
    + exists []. by rewrite app_nil_r.
  - destruct (IH (S i) records marked) as (new & Hnew & Hm).
    exists new. split; [done|].
    destruct (mark_loop _ _ _ _ _ _ _); [done | | done].
    by destruct Hm.
  - exists []. by rewrite app_nil_r.
Qed.

Lemma list_set_NoDup xs : NoDup (list_set xs).
Proof. unfold list_set. apply NoDup_elements. Qed.

Lemma elem_of_list_set n xs : n ∈ list_set xs ↔ n ∈ xs.
Proof. unfold list_set. by rewrite elem_of_elements, elem_of_list_to_set. Qed.

Lemma mark_attendance_returned img clock w self :
  let out := mark_attendance dist img clock w self in
  NoDup (returned out.2)
  ∧ ∃ new,
      attendance_records out.1 = attendance_records self ++ new
      ∧ (reported out.2 = None →
         ∀ n, n ∈ returned out.2 ↔ n ∈ rec_name <$> new).
Proof.
  unfold mark_attendance. destruct img as [faces|e]; simpl.
  2:{ split; [constructor|]. exists []. by rewrite app_nil_r. }
  destruct (mark_loop_appends (students self) clock faces 0
              (attendance_records self) []) as (new & Hnew & Hm).
  destruct (mark_loop dist (students self) clock 0 faces
              (attendance_records self) []) as [records marked|records|e records];
    simpl in Hnew.
  - destruct marked as [|n marked]; simpl.
    + split; [constructor|]. exists new. split; [done|].
      intros _ n. destruct new; [done | discriminate].
    + destruct w; simpl.
      * split; [apply list_set_NoDup|]. exists new. split; [done|].
        intros _ n'. by rewrite elem_of_list_set, Hm.
      * split; [constructor|]. exists new. split; done.
      * split; [constructor|]. exists new. split; done.
  - simpl. split; [constructor|]. exists new. split; [done|].
    destruct Hm as [-> _]. done.
  - simpl. split; [constructor|]. exists new. split; done.
Qed.
End Capture.

(** C9: the list that [mark_attendance] returns has no repeated name,
    and when no error was reported its names are those of the events
    appended by the call; on a store with two students called Alex, a
    capture that records both appends two events and returns the name
    once. *)
Theorem mark_attendance_names_once :
  (∀ (encoding : Type) (dist : encoding → encoding → Q) img clock w
     (self : AttendanceData encoding),
     let out := mark_attendance dist img clock w self in
     NoDup (returned out.2)
     ∧ ∃ new,
         attendance_records out.1 = attendance_records self ++ new
         ∧ (reported out.2 = None →
            ∀ n, n ∈ returned out.2 ↔ n ∈ rec_name <$> new))
  ∧ (returned Sample.namesakes_capture.2 = ["Alex"]
     ∧ attendance_records Sample.namesakes_capture.1
       = [Sample.event "S1" "Alex" "Class 10A" "2025-10-08" "09:30:00";
          Sample.event "S2" "Alex" "Class 10B" "2025-10-08" "09:30:00"]).
Proof.
  split; [intros; apply mark_attendance_returned|].
  vm_compute. done.
Qed.

(** ** Rounding *)

Lemma rne_spec (x : Q) :
  (inject_Z (rne x) - x <= 1 # 2)%Q ∧ (x - inject_Z (rne x) <= 1 # 2)%Q.
Proof.
  destruct x as [n d]. unfold rne. cbn [Qnum Qden].
  pose proof (Z.div_mod n (Zpos d) ltac:(done)) as Hdm.
  pose proof (Z.mod_pos_bound n (Zpos d) ltac:(done)) as Hr.
  set (a := (n / Zpos d)%Z) in *. set (r := (n mod Zpos d)%Z) in *.
  unfold Qle, Qminus, Qplus, Qopp, inject_Z. cbn [Qnum Qden].
  destruct (Z.compare_spec (2 * r) (Zpos d)) as [He|Hl|Hg];
    [destruct (Z.even a)| |]; split; nia.
Qed.

Lemma rne_le (x : Q) (M : Z) : (x <= inject_Z M)%Q → (rne x <= M)%Z.
Proof.
  destruct x as [n d]. unfold rne, Qle, inject_Z. cbn [Qnum Qden].
  intros Hle.
  pose proof (Z.div_mod n (Zpos d) ltac:(done)) as Hdm.
  pose proof (Z.mod_pos_bound n (Zpos d) ltac:(done)) as Hr.
  set (a := (n / Zpos d)%Z) in *. set (r := (n mod Zpos d)%Z) in *.
  destruct (Z.compare_spec (2 * r) (Zpos d)) as [He|Hl|Hg];
    [destruct (Z.even a)| |]; nia.
Qed.

Lemma rne_ge (x : Q) (M : Z) : (inject_Z M <= x)%Q → (M <= rne x)%Z.
Proof.
  destruct x as [n d]. unfold rne, Qle, inject_Z. cbn [Qnum Qden].
  intros Hle.
  pose proof (Z.div_mod n (Zpos d) ltac:(done)) as Hdm.
  pose proof (Z.mod_pos_bound n (Zpos d) ltac:(done)) as Hr.
  set (a := (n / Zpos d)%Z) in *. set (r := (n mod Zpos d)%Z) in *.
  destruct (Z.compare_spec (2 * r) (Zpos d)) as [He|Hl|Hg];
    [destruct (Z.even a)| |]; nia.
Qed.

Lemma Qpower2_pos (z : Z) : (0 < 2 ^ z)%Q.
Proof. by apply Qpower_0_lt. Qed.

Lemma Qpower2_Z (z : Z) : (0 <= z)%Z → (inject_Z (2 ^ z) == 2 ^ z)%Q.
Proof. intros Hz. by rewrite Zpower_Qpower. Qed.

(** The difference of the binary logarithms of numerator and
    denominator is the exponent of the binade or one more. *)
Lemma log2_quotient_lower (q : Q) :
  (0 < q)%Q →
  (2 ^ (Z.log2 (Qnum q) - Z.log2 (Zpos (Qden q)) - 1) <= q)%Q.
Proof.
  destruct q as [n d]. unfold Qlt. cbn [Qnum Qden]. intros Hq.
  assert (Hn : (0 < n)%Z) by lia.
  destruct (Z.log2_spec n Hn) as [Hna _].
  destruct (Z.log2_spec (Zpos d) ltac:(done)) as [_ Hdb].
  pose proof (Z.log2_nonneg n) as Ha.
  pose proof (Z.log2_nonneg (Zpos d)) as Hb.
  set (a := Z.log2 n) in *. set (b := Z.log2 (Zpos d)) in *.
  replace (a - b - 1)%Z with (a + - (b + 1))%Z by lia.
  rewrite Qpower_plus by done. rewrite Qpower_opp.
  rewrite <- !Qpower2_Z by lia.
  rewrite (Qmake_Qdiv n d).
  pose proof (Z.pow_pos_nonneg 2 (Z.succ b) ltac:(lia) ltac:(lia)) as Hpb.
  replace (b + 1)%Z with (Z.succ b) by lia.
  set (A := (2 ^ a)%Z) in *. set (B := (2 ^ Z.succ b)%Z) in *.
  apply Qle_shift_div_l; [unfold Qlt; simpl; lia|].
  unfold Qdiv. rewrite <- Qmult_assoc, (Qmult_comm (/ _)), Qmult_assoc.
  apply Qle_shift_div_r; [unfold Qlt; simpl; lia|].
  rewrite <- !inject_Z_mult, <- Zle_Qle. nia.
Qed.

Lemma ilog2_lower (q : Q) : (0 < q)%Q → (2 ^ ilog2 q <= q)%Q.
Proof.
  intros Hq. unfold ilog2.
  destruct (Qle_bool _ q) eqn:Hle; [by apply Qle_bool_iff|].
  by apply log2_quotient_lower.
Qed.

Lemma log2_quotient_upper (q : Q) :
  (0 < q)%Q →
  (q < 2 ^ (Z.log2 (Qnum q) - Z.log2 (Zpos (Qden q)) + 1))%Q.
Proof.
  destruct q as [n d]. unfold Qlt at 1. cbn [Qnum Qden]. intros Hq.
  assert (Hn : (0 < n)%Z) by lia.
  destruct (Z.log2_spec n Hn) as [_ Hna].
  destruct (Z.log2_spec (Zpos d) ltac:(done)) as [Hdb _].
  pose proof (Z.log2_nonneg n) as Ha.
  pose proof (Z.log2_nonneg (Zpos d)) as Hb.
  set (a := Z.log2 n) in *. set (b := Z.log2 (Zpos d)) in *.
  replace (a - b + 1)%Z with (Z.succ a + - b)%Z by lia.
  rewrite Qpower_plus by done. rewrite Qpower_opp.
  rewrite <- !Qpower2_Z by lia.
  rewrite (Qmake_Qdiv n d).
  pose proof (Z.pow_pos_nonneg 2 b ltac:(lia) ltac:(lia)) as Hpb.
  set (A := (2 ^ Z.succ a)%Z) in *. set (B := (2 ^ b)%Z) in *.
  apply Qlt_shift_div_r; [unfold Qlt; simpl; lia|].
  unfold Qdiv. rewrite <- Qmult_assoc, (Qmult_comm (/ _)), Qmult_assoc.
  apply Qlt_shift_div_l; [unfold Qlt; simpl; lia|].
  rewrite <- !inject_Z_mult, <- Zlt_Qlt. nia.
Qed.

(** [ilog2 q] is the exponent of the binade of [q], so that the
    significand taken by [round_pos] lies from [2 ^ 52] up to
    [2 ^ 53]. *)
Lemma ilog2_binade (q : Q) :
  (0 < q)%Q → (2 ^ ilog2 q <= q)%Q ∧ (q < 2 ^ (ilog2 q + 1))%Q.
Proof.
  intros Hq. split; [by apply ilog2_lower|]. unfold ilog2.
  destruct (Qle_bool _ q) eqn:Hle; [by apply log2_quotient_upper|].
  replace (Z.log2 (Qnum q) - Z.log2 (Zpos (Qden q)) - 1 + 1)%Z
    with (Z.log2 (Qnum q) - Z.log2 (Zpos (Qden q)))%Z by lia.
  apply Qnot_le_lt. intros H. apply Qle_bool_iff in H. congruence.
Qed.

(** The floats 1/3 * 100, 29/100 * 100 and 2/3. *)
Lemma round64_values :
  round64 (round64 (1 # 3) * 100) = (2345624805922133 # 70368744177664)%Q
  ∧ round64 (round64 (29 # 100) * 100)
    = (8162774324609023 # 281474976710656)%Q
  ∧ round64 (2 # 3) = (6004799503160661 # 9007199254740992)%Q.
Proof. by vm_compute. Qed.

Lemma ilog2_upper (q : Q) (j : Z) :
  (0 < q)%Q → (0 <= j)%Z → (q <= inject_Z (2 ^ j))%Q → (ilog2 q <= j)%Z.
Proof.
  destruct q as [n d]. unfold Qlt, Qle, ilog2. cbn [Qnum Qden inject_Z].
  intros Hq Hj Hle.
  assert (Hl : (Z.log2 n <= j + Z.log2 (Zpos d))%Z).
  { rewrite <- (Z.log2_mul_pow2 (Zpos d) j) by lia.
    apply Z.log2_le_mono. lia. }
  destruct (Qle_bool _ _); lia.
Qed.

Lemma round_pos_nonneg (q : Q) : (0 < q)%Q → (0 <= round_pos q)%Q.
Proof.
  intros Hq. unfold round_pos.
  pose proof (Qpower2_pos (ilog2 q - 52)) as HP.
  set (P := (2 ^ (ilog2 q - 52))%Q) in *.
  assert (Hx : (inject_Z 0 <= q / P)%Q).
  { apply Qle_shift_div_l; [done|]. change (inject_Z 0) with 0%Q. lra. }
  apply rne_ge in Hx. rewrite Zle_Qle in Hx.
  change (inject_Z 0) with 0%Q in Hx. nra.
Qed.

(** The relative error of one rounding is at most [2 ^ -53]. *)
Lemma round_pos_error (q : Q) :
  (0 < q)%Q → (Qabs (round_pos q - q) <= q * (1 # 9007199254740992))%Q.
Proof.
  intros Hq. unfold round_pos.
  pose proof (ilog2_lower q Hq) as Hlow.
  pose proof (Qpower2_pos (ilog2 q - 52)) as HP.
  assert (Hk : (2 ^ ilog2 q == 2 ^ (ilog2 q - 52) * inject_Z (2 ^ 52))%Q).
  { rewrite Qpower2_Z by done. rewrite <- Qpower_plus by done.
    by replace (ilog2 q - 52 + 52)%Z with (ilog2 q) by lia. }
  rewrite Hk in Hlow. clear Hk.
  set (P := (2 ^ (ilog2 q - 52))%Q) in *.
  destruct (rne_spec (q / P)) as [H1 H2].
  set (m := inject_Z (rne (q / P))) in *.
  assert (Hq' : (q == q / P * P)%Q) by (field; lra).
  set (x := (q / P)%Q) in *.
  change (inject_Z (2 ^ 52)) with (4503599627370496 # 1)%Q in Hlow.
  apply Qabs_Qle_condition. split; nra.
Qed.

(** Rounding does not pass an integer that is a multiple of the unit
    in the last place. *)
Lemma round_pos_le (q : Q) (M j : Z) :
  (0 < q)%Q → (0 <= j <= 52)%Z → (q <= inject_Z (2 ^ j))%Q →
  (q <= inject_Z M)%Q → (round_pos q <= inject_Z M)%Q.
Proof.
  intros Hq Hj Hpow HM. unfold round_pos.
  pose proof (ilog2_upper q j Hq ltac:(lia) Hpow) as Hk.
  pose proof (Qpower2_pos (ilog2 q - 52)) as HP.
  assert (Hinv : (2 ^ (ilog2 q - 52) * inject_Z (2 ^ (52 - ilog2 q)) == 1)%Q).
  { rewrite Qpower2_Z by lia. rewrite <- Qpower_plus by done.
    by replace (ilog2 q - 52 + (52 - ilog2 q))%Z with 0%Z by lia. }
  set (P := (2 ^ (ilog2 q - 52))%Q) in *.
  set (R := (2 ^ (52 - ilog2 q))%Z) in *.
  assert (Hx : (q / P <= inject_Z (M * R))%Q).
  { apply Qle_shift_div_r; [done|]. rewrite inject_Z_mult. nra. }
  apply rne_le in Hx. rewrite Zle_Qle, inject_Z_mult in Hx.
  set (m := inject_Z (rne (q / P))) in *. nra.
Qed.

Lemma round64_pos (q : Q) : (0 < q)%Q → (round64 q == round_pos q)%Q.
Proof.
  destruct q as [[|n|n] d]; unfold Qlt; cbn [Qnum Qden]; intros Hq; try lia.
  unfold round64. cbn [Qnum]. apply Qred_correct.
Qed.

Lemma round64_zero (q : Q) : (q == 0)%Q → round64 q = 0%Q.
Proof.
  destruct q as [[|n|n] d]; unfold Qeq; cbn [Qnum Qden]; intros Hq;
    [done | lia | lia].
Qed.

Lemma round64_nonneg (q : Q) : (0 <= q)%Q → (0 <= round64 q)%Q.
Proof.
  intros Hq. destruct (Qlt_le_dec 0 q) as [Hpos | Hneg].
  - rewrite round64_pos by done. by apply round_pos_nonneg.
  - rewrite (round64_zero q); [done | lra].
Qed.

Lemma round64_le (q : Q) (M j : Z) :
  (0 <= q)%Q → (0 <= j <= 52)%Z → (q <= inject_Z (2 ^ j))%Q →
  (q <= inject_Z M)%Q → (round64 q <= inject_Z M)%Q.
Proof.
  intros Hq Hj Hpow HM. destruct (Qlt_le_dec 0 q) as [Hpos | Hneg].
  - rewrite round64_pos by done. by eapply round_pos_le.
  - rewrite (round64_zero q); lra.
Qed.

Lemma round64_error (q : Q) :
  (0 <= q)%Q → (Qabs (round64 q - q) <= q * (1 # 9007199254740992))%Q.
Proof.
  intros Hq. destruct (Qlt_le_dec 0 q) as [Hpos | Hneg].
  - rewrite round64_pos by done. by apply round_pos_error.
  - rewrite (round64_zero q) by lra.
    apply Qabs_Qle_condition. split; lra.
Qed.

(** The float [p / t * 100] for [0 <= p] and [0 < t]. *)
Lemma percentage_error (p t : Z) :
  (0 <= p)%Z → (0 < t)%Z →
  (Qabs (round64 (round64 (inject_Z p / inject_Z t) * 100)
         - inject_Z p / inject_Z t * 100)
   <= inject_Z p / inject_Z t * 100 * (3 # 9007199254740992))%Q.
Proof.
  intros Hp Ht.
  assert (Hq : (0 <= inject_Z p / inject_Z t)%Q).
  { apply Qle_shift_div_l; [by rewrite <- (Zlt_Qlt 0)|].
    rewrite Qmult_0_l. by rewrite <- (Zle_Qle 0). }
  set (q := (inject_Z p / inject_Z t)%Q) in *.
  pose proof (round64_nonneg q Hq) as Hx.
  pose proof (round64_error q Hq) as Hex.
  set (x := round64 q) in *.
  assert (Hx100 : (0 <= x * 100)%Q) by nra.
  pose proof (round64_error (x * 100) Hx100) as Her.
  set (r := round64 (x * 100)) in *.
  apply Qabs_Qle_condition in Hex as [Hex1 Hex2].
  apply Qabs_Qle_condition in Her as [Her1 Her2].
  apply Qabs_Qle_condition. split; nra.
Qed.

Lemma percentage_bounds (p t : Z) :
  (0 <= p <= t)%Z → (0 < t)%Z →
  (0 <= round64 (round64 (inject_Z p / inject_Z t) * 100))%Q
  ∧ (round64 (round64 (inject_Z p / inject_Z t) * 100) <= 100)%Q.
Proof.
  intros Hp Ht.
  assert (Hq : (0 <= inject_Z p / inject_Z t)%Q).
  { apply Qle_shift_div_l; [by rewrite <- (Zlt_Qlt 0)|].
    rewrite Qmult_0_l. rewrite <- (Zle_Qle 0). lia. }
  assert (Hq1 : (inject_Z p / inject_Z t <= inject_Z 1)%Q).
  { apply Qle_shift_div_r; [by rewrite <- (Zlt_Qlt 0)|].
    rewrite <- inject_Z_mult, <- Zle_Qle. lia. }
  set (q := (inject_Z p / inject_Z t)%Q) in *.
  pose proof (round64_nonneg q Hq) as Hx.
  pose proof (round64_le q 1 0 Hq ltac:(lia) Hq1 Hq1) as Hx1.
  set (x := round64 q) in *.
  change (inject_Z 1) with 1%Q in Hx1.
  assert (Hx100 : (0 <= x * 100)%Q) by nra.
  split; [by apply round64_nonneg|].
  apply (round64_le (x * 100) 100 7); [done | lia | |].
  - change (inject_Z (2 ^ 7)) with 128%Q. nra.
  - change (inject_Z 100) with 100%Q. nra.
Qed.

(** ** The aggregator *)

Lemma filter_key_once {A : Type} (key : A → string) (l : list A) (k : string) :
  NoDup (key <$> l) → k ∈ key <$> l →
  length (filter (λ a, key a = k) l) = 1%nat.
Proof.
  induction l as [|a l IH]; intros Hnd Hk.
  { by apply elem_of_nil in Hk. }
  rewrite fmap_cons in Hnd, Hk. apply NoDup_cons in Hnd as [Hnotin Hnd].
  rewrite filter_cons. case_decide as Heq.
  - subst k. simpl. f_equal.
    destruct (filter (λ a', key a' = key a) l) as [|a' l'] eqn:Hf; [done|].
    assert (Hin : a' ∈ filter (λ a', key a' = key a) l) by (rewrite Hf; left).
    apply list_elem_of_filter in Hin as [Ha' Hin].
    destruct Hnotin. rewrite <- Ha'. apply list_elem_of_fmap. eauto.
  - apply IH; [done|].
    apply elem_of_cons in Hk as [->|]; done.
Qed.

Section Aggregator.
Context {encoding : Type}.

Implicit Types (records : list attendance_record).
Implicit Types (self : AttendanceData encoding).

Lemma events_for_nonempty sid d records :
  events_for sid d records ≠ []
  ↔ ∃ r, r ∈ records ∧ student_id r = sid ∧ rec_date r = d.
Proof.
  unfold events_for. split.
  - destruct (filter _ records) as [|r l] eqn:Hf; [done | intros _].
    assert (Hr : r ∈ filter (λ r, student_id r = sid ∧ rec_date r = d) records)
      by (rewrite Hf; left).
    apply list_elem_of_filter in Hr as [[? ?] ?]. eauto.
  - intros (r & Hr & Hs & Hd) Hf.
    assert (Hin : r ∈ filter (λ r, student_id r = sid ∧ rec_date r = d) records)
      by (apply list_elem_of_filter; done).
    rewrite Hf in Hin. by apply elem_of_nil in Hin.
Qed.

Lemma elem_of_present_ids sid d records :
  sid ∈ present_ids d records
  ↔ ∃ r, r ∈ records ∧ student_id r = sid ∧ rec_date r = d.
Proof.
  unfold present_ids.
  rewrite elem_of_list_to_set, list_elem_of_fmap.
  setoid_rewrite list_elem_of_filter. split.
  - intros (r & Hs & Hd & Hr). eauto.
  - intros (r & Hr & Hs & Hd). eauto.
Qed.

(** C4, amended: the counts add up, [present_today] is the number of
    distinct identity keys with an event on the date, and the rate is
    the percentage that Python computes as the float
    [present_today / total_students * 100]: the quotient rounded to a
    float, times 100, rounded again, which is within a relative error
    of [3 * 2 ^ -53] of the exact percentage; it is 0 when nobody is
    enrolled. *)
Theorem get_attendance_stats_consistent (today : string) self :
  let s := get_attendance_stats today self in
  total_students s = Z.of_nat (length (students self))
  ∧ (present_today s + absent_today s = total_students s)%Z
  ∧ (∃ ids : list string,
       NoDup ids
       ∧ (∀ sid, sid ∈ ids ↔
            ∃ r, r ∈ attendance_records self
                 ∧ student_id r = sid ∧ rec_date r = today)
       ∧ present_today s = Z.of_nat (length ids))
  ∧ (total_students s = 0%Z → attendance_rate s = 0%Q)
  ∧ (total_students s ≠ 0%Z →
     attendance_rate s
     = round64
         (round64 (inject_Z (present_today s) / inject_Z (total_students s))
          * 100)
     ∧ (Qabs (attendance_rate s
              - inject_Z (present_today s) / inject_Z (total_students s) * 100)
        <= inject_Z (present_today s) / inject_Z (total_students s) * 100
           * (3 # 9007199254740992))%Q).
Proof.
  unfold get_attendance_stats.
  cbn [total_students present_today absent_today attendance_rate].
  split_and!.
  - done.
  - lia.
  - exists (elements (present_ids today (attendance_records self))).
    split_and!.
    + apply NoDup_elements.
    + intros sid. by rewrite elem_of_elements, elem_of_present_ids.
    + done.
  - intros ->. done.
  - intros Hne.
    destruct (0 <? Z.of_nat (length (students self)))%Z eqn:Hlt.
    + apply Z.ltb_lt in Hlt. split; [done|].
      apply percentage_error; lia.
    + apply Z.ltb_ge in Hlt. lia.
Qed.

Lemma report_data_all (date_str : string) self :
  report_data date_str "All Classes" self
  = row_of date_str (attendance_records self) <$> students self.
Proof.
  unfold report_data.
  induction (students self) as [|[sid student_data] ss IH]; [done|].
  rewrite fmap_cons, <- IH. simpl. unfold row_of at 1. simpl.
  do 2 f_equal.
  pose proof (elem_of_present_ids sid date_str (attendance_records self)) as He.
  pose proof (events_for_nonempty sid date_str (attendance_records self)) as Hn.
  destruct (decide (sid ∈ present_ids date_str (attendance_records self)))
    as [Hp | Hp].
  - rewrite bool_decide_eq_true_2 by done.
    apply He, Hn in Hp. by rewrite decide_False.
  - rewrite bool_decide_eq_false_2 by done.
    rewrite decide_True; [done|].
    destruct (decide (events_for sid date_str (attendance_records self) = []))
      as [|Hq]; [done|].
    destruct Hp. by apply He, Hn.
Qed.

(** C5: the unfiltered report has one row for every enrolled identity,
    in the order of the store and in no other position, so that every
    key of the store is the key of exactly one row; the status of a row
    is "Present" when the ledger has an event for its identity on the
    date and "Absent" otherwise. *)
Theorem report_data_complete (date_str : string) self :
  let rows := report_data date_str "All Classes" self in
  length rows = length (students self)
  ∧ row_student_id <$> rows = dict_keys (students self)
  ∧ (∀ i, rows !! i
          = row_of date_str (attendance_records self) <$> students self !! i)
  ∧ (∀ row, row ∈ rows →
       (row_status row = "Present"
        ∧ ∃ r, r ∈ attendance_records self
               ∧ student_id r = row_student_id row ∧ rec_date r = date_str)
       ∨ (row_status row = "Absent"
          ∧ ¬ ∃ r, r ∈ attendance_records self
                   ∧ student_id r = row_student_id row
                   ∧ rec_date r = date_str))
  ∧ (NoDup (dict_keys (students self)) →
     ∀ sid, sid ∈ dict_keys (students self) →
       length (filter (λ row, row_student_id row = sid) rows) = 1%nat).
Proof.
  intros rows. subst rows. rewrite report_data_all.
  assert (Hids : row_student_id
                   <$> (row_of date_str (attendance_records self)
                          <$> students self)
                 = dict_keys (students self)).
  { unfold dict_keys. rewrite <- list_fmap_compose. done. }
  split_and!.
  - by rewrite length_fmap.
  - done.
  - intros i. by rewrite list_lookup_fmap.
  - intros row Hrow. apply list_elem_of_fmap in Hrow as ([sid sd] & -> & _).
    unfold row_of. simpl.
    pose proof (events_for_nonempty sid date_str (attendance_records self)) as Hn.
    case_decide as Hq.
    + right. split; [done|]. intros Hr. apply Hn in Hr. done.
    + left. split; [done|]. by apply Hn.
  - intros Hnd sid Hsid. rewrite <- Hids in Hnd, Hsid.
    by apply filter_key_once.
Qed.
End Aggregator.

(** ** The identity store *)

Section Store.
Context {encoding : Type} (dist : encoding → encoding → Q).

Implicit Types (self : AttendanceData encoding).

Lemma dict_keys_set {V : Type} (k : string) (v : V) (d : dict V) :
  dict_keys (dict_set k v d)
  = if decide (k ∈ dict_keys d) then dict_keys d else dict_keys d ++ [k].
Proof.
  unfold dict_keys. induction d as [|[k' v'] d IH]; [done|].
  cbn [dict_set]. destruct (decide (k = k')) as [->|Hne];
    rewrite !fmap_cons; cbn [fst].
  - rewrite decide_True; [done | left].
  - rewrite IH. destruct (decide (k ∈ d.*1)) as [Hin|Hnin].
    + rewrite decide_True; [done | by right].
    + rewrite decide_False; [done|].
      intros [?|?]%elem_of_cons; done.
Qed.

Lemma dict_set_NoDup {V : Type} (k : string) (v : V) (d : dict V) :
  NoDup (dict_keys d) → NoDup (dict_keys (dict_set k v d)).
Proof.
  intros Hd. rewrite dict_keys_set. case_decide; [done|].
  apply NoDup_app. split_and!; [done | | apply NoDup_singleton].
  intros k' Hk' ->%list_elem_of_singleton. done.
Qed.

Lemma dict_get_set {V : Type} (k : string) (v : V) (d : dict V) :
  dict_get k (dict_set k v d) = Some v.
Proof.
  induction d as [|[k' v'] d IH]; simpl.
  - by rewrite decide_True.
  - destruct (decide (k = k')) as [->|Hne]; simpl.
    + by rewrite decide_True.
    + by rewrite decide_False.
Qed.

Lemma register_student_keys sid nm cls em img photo now w self :
  NoDup (dict_keys (students self)) →
  NoDup (dict_keys (students
           (register_student sid nm cls em img photo now w self).1)).
Proof.
  intros Hd. unfold register_student.
  destruct (generate_face_encoding img); [|done].
  destruct (image_save _ photo); [|done].
  destruct w; simpl; by apply dict_set_NoDup.
Qed.

(** [register_student] once a face is detected: when the photo cannot
    be saved the exception leaves the method before the store is
    touched; when it is saved the record is assigned and the students
    are saved. *)
Lemma register_student_photo sid nm cls em e rest photo now w self :
  (∀ x, image_save (path_join images_dir (sid +:+ ".jpg")) photo = Raised x →
        register_student sid nm cls em (Returned (e :: rest)) photo now w self
        = (self, Raised x))
  ∧ (image_save (path_join images_dir (sid +:+ ".jpg")) photo = Returned tt →
     register_student sid nm cls em (Returned (e :: rest)) photo now w self
     = ((save_students w
           (set_students
              (dict_set sid
                 {| name := nm; class := cls; email := em;
                    image_path := path_join images_dir (sid +:+ ".jpg");
                    face_encoding := e; registration_date := now |}
                 (students self)) self)).1,
        match w with
        | Flushed => Returned true
        | _ => Raised OSError
        end)).
Proof.
  unfold register_student. cbn [generate_face_encoding].
  split; [intros x Hx | intros Hx]; rewrite Hx; [done|]. by destruct w.
Qed.

(** A capture leaves the identity store and its file alone. *)
Lemma mark_attendance_students img clock w self :
  students (mark_attendance dist img clock w self).1 = students self
  ∧ students_file (mark_attendance dist img clock w self).1
    = students_file self.
Proof.
  unfold mark_attendance. destruct img as [faces|]; [|done].
  destruct (mark_loop dist (students self) clock 0 faces
              (attendance_records self) []) as [records [|n marked]| |];
    try done.
  by destruct w.
Qed.

Lemma exec_keys c self :
  NoDup (dict_keys (students self)) →
  NoDup (dict_keys (students (exec dist c self))).
Proof.
  intros Hd.
  destruct c as [sid nm cls em buf photo now w|img clock w|w|w1 w2]; simpl.
  - unfold submit_registration.
    repeat (case_match; try done);
      match goal with
      | H : register_student ?a ?b ?c ?d ?e ?f ?g ?h ?i = _ |- _ =>
          pose proof (register_student_keys a b c d e f g h i Hd) as Hr;
          rewrite H in Hr; exact Hr
      end.
  - by rewrite (proj1 (mark_attendance_students img clock w self)).
  - by destruct w.
  - destruct w1, w2; simpl; constructor.
Qed.

(** The keys of the store stay pairwise distinct. *)
Lemma run_keys cs self :
  NoDup (dict_keys (students self)) →
  NoDup (dict_keys (students (run dist cs self))).
Proof.
  revert self. induction cs as [|c cs IH]; intros self Hd; [done|].
  simpl. apply IH. by apply exec_keys.
Qed.

(** A submission whose identifier is, as typed, a key of the store is
    turned down and changes nothing. *)
Lemma submit_registration_same_key sid nm cls em buf photo now w self :
  sid ∈ dict_keys (students self) →
  (submit_registration sid nm cls em buf photo now w self).1 = self
  ∧ ((submit_registration sid nm cls em buf photo now w self).2
     = IdAlreadyExists
     ∨ (submit_registration sid nm cls em buf photo now w self).2
       = FillAllFields).
Proof.
  intros Hin. unfold submit_registration.
  destruct (negb _); [by auto|].
  unfold dict_mem. rewrite bool_decide_eq_true_2 by done. by auto.
Qed.

(** [register_student] itself has no test of the key: on a key of the
    store it answers [True] and replaces the record. *)
Lemma register_student_overwrites sid nm cls em e rest photo now self :
  image_save (path_join images_dir (sid +:+ ".jpg")) photo = Returned tt →
  let out := register_student sid nm cls em (Returned (e :: rest)) photo now
               Flushed self in
  out.2 = Returned true
  ∧ dict_get sid (students out.1)
    = Some {| name := nm; class := cls; email := em;
              image_path := path_join images_dir (sid +:+ ".jpg");
              face_encoding := e; registration_date := now |}.
Proof.
  intros Hphoto out. subst out.
  rewrite (proj2 (register_student_photo sid nm cls em e rest photo now
                    Flushed self) Hphoto).
  split; [done|]. apply dict_get_set.
Qed.
End Store.

(** C3: a store that holds "S1" for Alice and a submission of the
    identifier "S1 " (with a trailing blank): the test of the form looks
    up the identifier as typed, the record is written under the stripped
    key, and the submission is answered as a success that replaces the
    record of Alice. *)
Theorem submit_registration_padded_key_overwrites :
  let self := Sample.manager Sample.at_tolerance [] in
  let out := submit_registration "S1 " "Mallory" "Class 9A" "m@school.edu"
               (Some (Returned (Returned [1%Q]))) (Returned tt)
               "2025-10-09 08:00:00" Flushed self in
  strip "S1 " = "S1"
  ∧ name <$> dict_get "S1" (students self) = Some "Alice"
  ∧ out.2 = Registered
  ∧ dict_keys (students out.1) = ["S1"]
  ∧ name <$> dict_get "S1" (students out.1) = Some "Mallory"
  ∧ students_file out.1 = Pickle (students out.1).
Proof. vm_compute. done. Qed.

(** ** Persistence *)

Section Persistence.
Context {encoding : Type} (dist : encoding → encoding → Q).

Implicit Types (self : AttendanceData encoding).

(** C6, amended: when the write of a save fails, the failure reaches the
    caller ([register_student] raises, which the form answers with
    "Registration failed"; [mark_attendance] reports the error and
    returns an empty list) and the state in memory keeps the change of
    the operation: the new student record, or the appended events.  The
    backing file stays as it was when it could not be opened; when the
    write fails after the file was opened, the old content is gone and
    the file loads as an empty collection. *)
Theorem failed_write_keeps_change :
  (∀ sid nm cls em e rest photo now w self,
     w ≠ Flushed →
     image_save (path_join images_dir (sid +:+ ".jpg")) photo = Returned tt →
     let out := register_student sid nm cls em (Returned (e :: rest)) photo
                  now w self in
     out.2 = Raised OSError
     ∧ students out.1
       = dict_set sid
           {| name := nm; class := cls; email := em;
              image_path := path_join images_dir (sid +:+ ".jpg");
              face_encoding := e; registration_date := now |}
           (students self)
     ∧ (w = Refused → students_file out.1 = students_file self)
     ∧ (∀ partial, w = Torn partial →
          students_file out.1 = torn_file partial
          ∧ load_students (students_file out.1) = Returned []))
  ∧ (∀ sid nm cls em e rest photo now w self,
       w ≠ Flushed →
       truthy sid = true → truthy nm = true → cls ≠ "Select Class" →
       sid ∉ dict_keys (students self) →
       image_save (path_join images_dir (strip sid +:+ ".jpg")) photo
       = Returned tt →
       (submit_registration sid nm cls em
          (Some (Returned (Returned (e :: rest)))) photo now w self).2
       = RegistrationFailed OSError)
  ∧ (∀ faces clock w self records marked,
       w ≠ Flushed →
       mark_loop dist (students self) clock 0 faces
         (attendance_records self) [] = LoopDone records marked →
       marked ≠ [] →
       let out := mark_attendance dist (Returned faces) clock w self in
       out.2 = {| returned := []; reported := Some OSError |}
       ∧ attendance_records out.1 = records
       ∧ (∃ new, new ≠ [] ∧ records = attendance_records self ++ new)
       ∧ (w = Refused → attendance_file out.1 = attendance_file self)
       ∧ (∀ partial, w = Torn partial →
            attendance_file out.1 = torn_file partial
            ∧ load_attendance (attendance_file out.1) = Returned [])).
Proof.
  split_and!.
  - intros sid nm cls em e rest photo now w self Hw Hphoto out. subst out.
    rewrite (proj2 (register_student_photo sid nm cls em e rest photo now
                      w self) Hphoto).
    destruct w as [| |partial]; [done | |]; simpl.
    + split_and!; done.
    + split_and!; [done | done | done |].
      intros p [= <-]. by destruct partial.
  - intros sid nm cls em e rest photo now w self Hw Hsid Hnm Hcls Hnew Hphoto.
    unfold submit_registration. rewrite Hsid, Hnm.
    rewrite bool_decide_eq_false_2 by done. simpl.
    unfold dict_mem. rewrite bool_decide_eq_false_2 by done.
    rewrite (proj2 (register_student_photo (strip sid) (strip nm) cls
                      (strip em) e rest photo now w self) Hphoto).
    by destruct w.
  - intros faces clock w self records marked Hw Hloop Hne out. subst out.
    unfold mark_attendance. rewrite Hloop.
    destruct (mark_loop_appends dist (students self) clock faces 0
                (attendance_records self) []) as (new & Hnew & Hm).
    rewrite Hloop in Hnew, Hm. simpl in Hnew, Hm.
    assert (Hex : ∃ new, new ≠ [] ∧ records = attendance_records self ++ new).
    { exists new. split; [|done]. intros ->. by destruct marked. }
    destruct marked as [|n marked]; [done|].
    destruct w as [| |partial]; [done | |]; simpl.
    + split_and!; done.
    + split_and!; [done | done | done | done |].
      intros p [= <-]. by destruct partial.
Qed.

(** C7, amended: a backing file that is missing, or whose reading
    raises [pickle.UnpicklingError] or [EOFError], loads as the empty
    store and the empty ledger, and then no identity is enrolled; any
    other exception raised by the reading leaves [load_students] and
    [load_attendance]. *)
Theorem load_damaged_pickle_empty :
  (@load_students encoding NoFile = Returned []
   ∧ load_attendance NoFile = Returned [])
  ∧ (∀ e, e = UnpicklingError ∨ e = EOFError →
       @load_students encoding (Unloadable e) = Returned []
       ∧ load_attendance (Unloadable e) = Returned []
       ∧ ∀ af rs, load_attendance af = Returned rs →
           @init encoding (Unloadable e) af
           = Returned {| students := []; attendance_records := rs;
                         students_file := Unloadable e;
                         attendance_file := af |})
  ∧ (∀ e, e ≠ UnpicklingError → e ≠ EOFError →
       @load_students encoding (Unloadable e) = Raised e
       ∧ load_attendance (Unloadable e) = Raised e).
Proof.
  split_and!; try done.
  - intros e [-> | ->]; (split_and!; [done | done |]);
      intros af rs Haf; unfold init; simpl; by rewrite Haf.
  - intros e H1 H2. by destruct e.
Qed.

(** C10: clearing the attendance records empties the ledger and leaves
    the students and their file as they were, whatever the write does;
    when the write goes through, the file of the ledger holds the empty
    list. *)
Theorem clear_all_attendance_frame (w : write) self :
  students (clear_all_attendance w self).1 = students self
  ∧ students_file (clear_all_attendance w self).1 = students_file self
  ∧ attendance_records (clear_all_attendance w self).1 = []
  ∧ (clear_all_attendance Flushed self).2 = Returned tt
  ∧ attendance_file (clear_all_attendance Flushed self).1 = Pickle [].
Proof. by destruct w. Qed.
End Persistence.

(** ** The properties on the sample data *)

(** An entry at distance 0.6 is matched under the tolerance 0.6 of
    [mark_attendance]: the distance equals the tolerance and is not
    below it. *)
Lemma match_face_accepts_at_tolerance :
  match_face Sample.dist1 Sample.at_tolerance 0%Q tolerance
  = Returned (Some "S1")
  ∧ (Sample.dist1 (6 # 10) 0%Q == tolerance)%Q
  ∧ ¬ (Sample.dist1 (6 # 10) 0%Q < tolerance)%Q.
Proof. split_and!; [done | done | by vm_compute]. Defined.

(** The store with Alice at 0.2 and Bob at 0.8. *)
Lemma match_face_within_tolerance_witness :
  Sample.near_far ≠ []
  ∧ (Sample.dist1 (2 # 10) 0%Q == 2 # 10)%Q
  ∧ (Sample.dist1 (8 # 10) 0%Q == 8 # 10)%Q
  ∧ (∃ i sid s,
       nearest Sample.dist1 Sample.near_far 0%Q i sid s
       ∧ ((Sample.dist1 (face_encoding s) 0%Q <= 6 # 10)%Q →
          match_face Sample.dist1 Sample.near_far 0%Q (6 # 10)
          = Returned (Some sid))
       ∧ ((6 # 10 < Sample.dist1 (face_encoding s) 0%Q)%Q →
          match_face Sample.dist1 Sample.near_far 0%Q (6 # 10) = Returned None))
  ∧ match_face Sample.dist1 Sample.near_far 0%Q (6 # 10) = Returned (Some "S1")
  ∧ match_face Sample.dist1 Sample.near_far 0%Q (1 # 10) = Returned None.
Proof.
  assert (H1 : (Sample.dist1 (2 # 10) 0%Q == 2 # 10)%Q) by reflexivity.
  assert (H2 : (Sample.dist1 (8 # 10) 0%Q == 8 # 10)%Q) by reflexivity.
  assert (Hne : Sample.near_far ≠ []) by discriminate.
  split_and!; [done | done | done | | |].
  - apply (proj1 (match_face_within_tolerance Sample.dist1)). exact Hne.
  - apply (proj2 (match_face_within_tolerance Sample.dist1)
             "S1" (Sample.enrolled "Alice" "Class 10A" (2 # 10))
             "S2" (Sample.enrolled "Bob" "Class 10A" (8 # 10)) 0%Q H1 H2).
  - apply (proj2 (match_face_within_tolerance Sample.dist1)
             "S1" (Sample.enrolled "Alice" "Class 10A" (2 # 10))
             "S2" (Sample.enrolled "Bob" "Class 10A" (8 # 10)) 0%Q H1 H2).
Defined.

(** Carol at 0.8, then Alice and Bob both at 0.2: index 1 is selected. *)
Lemma match_face_first_of_ties_witness :
  Sample.far_then_tied !! 1%nat
  = Some ("S1", Sample.enrolled "Alice" "Class 10A" (2 # 10))
  ∧ attains_min Sample.dist1 Sample.far_then_tied 0%Q 1
  ∧ attains_min Sample.dist1 Sample.far_then_tied 0%Q 2
  ∧ (∀ k, (k < 1)%nat → ¬ attains_min Sample.dist1 Sample.far_then_tied 0%Q k)
  ∧ argmin (face_distance Sample.dist1
              (face_encoding <$> dict_values Sample.far_then_tied) 0%Q)
    = Returned 1%nat
  ∧ match_face Sample.dist1 Sample.far_then_tied 0%Q tolerance
    = Returned (Some "S1").
Proof.
  assert (Hmin : ∀ i, (i = 1 ∨ i = 2)%nat →
                 attains_min Sample.dist1 Sample.far_then_tied 0%Q i).
  { intros i [-> | ->]; (eexists; split; [reflexivity|]);
      intros [|[|[|j]]] e' He; simplify_eq/=; by vm_compute. }
  assert (Hfirst : ∀ k, (k < 1)%nat →
                   ¬ attains_min Sample.dist1 Sample.far_then_tied 0%Q k).
  { intros k Hk (e & He & Hle). assert (k = 0%nat) as -> by lia.
    simplify_eq/=. by specialize (Hle 1%nat _ eq_refl). }
  pose proof (match_face_first_of_ties Sample.dist1 Sample.far_then_tied 0%Q
                tolerance 1 "S1" _ eq_refl (Hmin 1%nat (or_introl eq_refl))
                Hfirst)
    as (Harg & Hacc & _).
  split_and!; [done | by apply Hmin; left | by apply Hmin; right | done
               | exact Harg | by apply Hacc].
Defined.

(** After a capture that records Alice, Bob is recorded twice on the
    same day. *)
Lemma record_if_new_once_witness :
  deduplicated (attendance_records Sample.fresh)
  ∧ attendance_records (run Sample.dist1 Sample.one_capture Sample.fresh)
    = [Sample.event "S1" "Alice" "Class 10A" "2025-10-08" "09:30:00"]
  ∧ events_for "S2" "2025-10-08"
      (attendance_records (run Sample.dist1 Sample.one_capture Sample.fresh))
    = []
  ∧ record_if_new "S2" (Sample.enrolled "Bob" "Class 10A" (8 # 10))
      "2025-10-08" "09:45:00"
      (attendance_records (run Sample.dist1 Sample.one_capture Sample.fresh))
    = (Recorded,
       [Sample.event "S1" "Alice" "Class 10A" "2025-10-08" "09:30:00";
        Sample.event "S2" "Bob" "Class 10A" "2025-10-08" "09:45:00"])
  ∧ record_if_new "S2" (Sample.enrolled "Bob" "Class 10A" (8 # 10))
      "2025-10-08" "10:15:00"
      [Sample.event "S1" "Alice" "Class 10A" "2025-10-08" "09:30:00";
       Sample.event "S2" "Bob" "Class 10A" "2025-10-08" "09:45:00"]
    = (AlreadyPresentToday,
       [Sample.event "S1" "Alice" "Class 10A" "2025-10-08" "09:30:00";
        Sample.event "S2" "Bob" "Class 10A" "2025-10-08" "09:45:00"]).
Proof.
  assert (Hd : deduplicated (attendance_records Sample.fresh))
    by (intros sid d; simpl; lia).
  pose proof (record_if_new_once Sample.dist1 Sample.one_capture Sample.fresh
                "S2" "2025-10-08" "09:45:00" "10:15:00"
                (Sample.enrolled "Bob" "Class 10A" (8 # 10))
                (Sample.enrolled "Bob" "Class 10A" (8 # 10)) Hd)
    as (_ & _ & Hfirst & Hsecond & _).
  split_and!; [exact Hd | reflexivity | reflexivity | reflexivity |].
  exact Hsecond.
Defined.

(** Two enrolled, one present: the rate is 50 and not 1/2. *)
Lemma attendance_rate_is_percentage :
  total_students (get_attendance_stats "2025-10-08" Sample.alice_present) = 2%Z
  ∧ present_today (get_attendance_stats "2025-10-08" Sample.alice_present)
    = 1%Z
  ∧ (attendance_rate (get_attendance_stats "2025-10-08" Sample.alice_present)
     == 50)%Q
  ∧ ¬ (attendance_rate (get_attendance_stats "2025-10-08" Sample.alice_present)
       == inject_Z
            (present_today
               (get_attendance_stats "2025-10-08" Sample.alice_present))
          / inject_Z
              (total_students
                 (get_attendance_stats "2025-10-08" Sample.alice_present)))%Q.
Proof. split_and!; [by vm_compute ..]. Defined.

(** The rate with three enrolled and one present, which is the float
    33.33333333333333, and with nobody enrolled. *)
Lemma get_attendance_stats_consistent_witness :
  total_students (get_attendance_stats "2025-10-08" Cases.one_of_three) ≠ 0%Z
  ∧ attendance_rate (get_attendance_stats "2025-10-08" Cases.one_of_three)
    = (2345624805922133 # 70368744177664)%Q
  ∧ (Qabs (attendance_rate
             (get_attendance_stats "2025-10-08" Cases.one_of_three)
           - inject_Z 1 / inject_Z 3 * 100)
     <= inject_Z 1 / inject_Z 3 * 100 * (3 # 9007199254740992))%Q
  ∧ total_students (get_attendance_stats "2025-10-08" (Sample.manager [] []))
    = 0%Z
  ∧ attendance_rate (get_attendance_stats "2025-10-08" (Sample.manager [] []))
    = 0%Q.
Proof.
  assert (H3 : total_students
                 (get_attendance_stats "2025-10-08" Cases.one_of_three)
               ≠ 0%Z) by (by vm_compute).
  assert (H0 : total_students
                 (get_attendance_stats "2025-10-08" (Sample.manager [] []))
               = 0%Z) by reflexivity.
  pose proof (get_attendance_stats_consistent "2025-10-08" Cases.one_of_three)
    as (_ & _ & _ & _ & Hrate).
  pose proof (get_attendance_stats_consistent "2025-10-08"
                (Sample.manager [] []))
    as (_ & _ & _ & Hzero & _).
  destruct (Hrate H3) as [Heq Herr].
  split_and!; [exact H3 | | exact Herr | exact H0 | exact (Hzero H0)].
  rewrite Heq. by vm_compute.
Defined.

(** The report of 2025-10-08 with Alice present and Bob absent. *)
Lemma report_data_complete_witness :
  NoDup (dict_keys (students Sample.alice_present))
  ∧ "S2" ∈ dict_keys (students Sample.alice_present)
  ∧ length (filter (λ row, row_student_id row = "S2")
              (report_data "2025-10-08" "All Classes" Sample.alice_present))
    = 1%nat
  ∧ row_status <$> report_data "2025-10-08" "All Classes" Sample.alice_present
    = ["Present"; "Absent"].
Proof.
  assert (Hnd : NoDup (dict_keys (students Sample.alice_present))).
  { apply NoDup_cons. split; [|apply NoDup_singleton].
    intros H%list_elem_of_singleton. discriminate. }
  assert (Hin : "S2" ∈ dict_keys (students Sample.alice_present))
    by (right; left).
  pose proof (report_data_complete "2025-10-08" Sample.alice_present)
    as (_ & _ & _ & _ & Honce).
  split_and!; [exact Hnd | exact Hin | exact (Honce Hnd "S2" Hin) | reflexivity].
Defined.

(** Carol is enrolled while the students file cannot be written: the
    call raises, the students in memory include Carol, and the file
    still holds the two students of before. *)
Lemma refused_write_not_rolled_back :
  Sample.refused_registration.2 = Raised OSError
  ∧ dict_keys (students Sample.fresh) = ["S1"; "S2"]
  ∧ dict_keys (students Sample.refused_registration.1) = ["S1"; "S2"; "S3"]
  ∧ students Sample.refused_registration.1 ≠ students Sample.fresh
  ∧ students_file Sample.refused_registration.1
    = Pickle (students Sample.fresh)
  ∧ students_file Sample.refused_registration.1
    ≠ Pickle (students Sample.refused_registration.1).
Proof.
  split_and!; [reflexivity | reflexivity | reflexivity | | reflexivity |];
    intros H; vm_compute in H; discriminate H.
Defined.

(** A capture and a form submission under a refused write, and an
    enrollment whose write is torn. *)
Lemma failed_write_keeps_change_witness :
  Refused ≠ Flushed ∧ Torn true ≠ Flushed
  ∧ mark_loop Sample.dist1 Sample.namesakes Sample.clock0 0 [0; 5]%Q [] []
    = LoopDone [Sample.event "S1" "Alex" "Class 10A" "2025-10-08" "09:30:00";
                Sample.event "S2" "Alex" "Class 10B" "2025-10-08" "09:30:00"]
        ["Alex"; "Alex"]
  ∧ ["Alex"; "Alex"] ≠ []
  ∧ Sample.refused_capture.2 = {| returned := []; reported := Some OSError |}
  ∧ attendance_file Sample.refused_capture.1 = Pickle []
  ∧ attendance_records Sample.refused_capture.1
    = [Sample.event "S1" "Alex" "Class 10A" "2025-10-08" "09:30:00";
       Sample.event "S2" "Alex" "Class 10B" "2025-10-08" "09:30:00"]
  ∧ ("S3" ∉ dict_keys (students Sample.fresh))
  ∧ image_save (path_join images_dir (strip "S3" +:+ ".jpg")) (Returned tt)
    = Returned tt
  ∧ (submit_registration "S3" "Carol" "Class 9A" "carol@school.edu"
       (Some (Returned (Returned [1%Q]))) (Returned tt) "2025-10-09 08:00:00"
       Refused Sample.fresh).2
    = RegistrationFailed OSError
  ∧ Cases.torn_registration.2 = Raised OSError
  ∧ dict_keys (students Cases.torn_registration.1) = ["S1"; "S2"; "S3"]
  ∧ load_students (students_file Cases.torn_registration.1) = Returned [].
Proof.
  assert (Hr : Refused ≠ Flushed) by discriminate.
  assert (Ht : Torn true ≠ Flushed) by discriminate.
  assert (Hloop :
    mark_loop Sample.dist1 (students (Sample.manager Sample.namesakes []))
      Sample.clock0 0 [0; 5]%Q
      (attendance_records (Sample.manager Sample.namesakes [])) []
    = LoopDone [Sample.event "S1" "Alex" "Class 10A" "2025-10-08" "09:30:00";
                Sample.event "S2" "Alex" "Class 10B" "2025-10-08" "09:30:00"]
        ["Alex"; "Alex"]) by reflexivity.
  assert (Hne : ["Alex"; "Alex"] ≠ []) by discriminate.
  assert (Hnew : "S3" ∉ dict_keys (students Sample.fresh)).
  { intros H. vm_compute in H.
    repeat (apply elem_of_cons in H as [H|H]; [discriminate H|]).
    by apply elem_of_nil in H. }
  assert (Hphoto : image_save (path_join images_dir (strip "S3" +:+ ".jpg"))
                     (Returned tt) = Returned tt) by reflexivity.
  destruct (failed_write_keeps_change Sample.dist1) as (Hreg & Hform & Hmark).
  destruct (Hmark [0; 5]%Q Sample.clock0 Refused
              (Sample.manager Sample.namesakes []) _ _ Hr Hloop Hne)
    as (Hout & Hrecs & _ & Hfile & _).
  destruct (Hreg "S3" "Carol" "Class 9A" "carol@school.edu" 1%Q []
              (Returned tt) "2025-10-09 08:00:00" (Torn true) Sample.fresh
              Ht Hphoto) as (Hraise & Hstud & _ & Htorn).
  split_and!; [exact Hr | exact Ht | exact Hloop | exact Hne | exact Hout
               | exact (Hfile eq_refl) | exact Hrecs | exact Hnew
               | exact Hphoto | | exact Hraise | | ].
  - exact (Hform "S3" "Carol" "Class 9A" "carol@school.edu" 1%Q []
             (Returned tt) "2025-10-09 08:00:00" Refused Sample.fresh
             Hr eq_refl eq_refl ltac:(discriminate) Hnew Hphoto).
  - exact (f_equal dict_keys Hstud).
  - exact (proj2 (Htorn true eq_refl)).
Defined.

(** A students file that exists and cannot be opened: the load raises,
    and so does the construction of the data manager. *)
Lemma load_students_unreadable_raises :
  @load_students Q (Unloadable OSError) = Raised OSError
  ∧ load_attendance (Unloadable OSError) = Raised OSError
  ∧ @init Q (Unloadable OSError) NoFile = Raised OSError.
Proof. split_and!; reflexivity. Defined.

(** A truncated students file next to a sound attendance file. *)
Lemma load_damaged_pickle_empty_witness :
  (EOFError = UnpicklingError ∨ EOFError = EOFError)
  ∧ @load_students Q (Unloadable EOFError) = Returned []
  ∧ load_attendance (Pickle [Sample.event "S1" "Alice" "Class 10A"
                               "2025-10-08" "09:30:00"])
    = Returned [Sample.event "S1" "Alice" "Class 10A" "2025-10-08" "09:30:00"]
  ∧ @init Q (Unloadable EOFError)
      (Pickle [Sample.event "S1" "Alice" "Class 10A" "2025-10-08" "09:30:00"])
    = Returned
        {| students := [];
           attendance_records :=
             [Sample.event "S1" "Alice" "Class 10A" "2025-10-08" "09:30:00"];
           students_file := Unloadable EOFError;
           attendance_file :=
             Pickle [Sample.event "S1" "Alice" "Class 10A" "2025-10-08"
                       "09:30:00"] |}
  ∧ OSError ≠ UnpicklingError
  ∧ OSError ≠ EOFError
  ∧ @load_students Q (Unloadable OSError) = Raised OSError.
Proof.
  assert (He : EOFError = UnpicklingError ∨ EOFError = EOFError) by (by right).
  assert (Hrs : load_attendance
                  (Pickle [Sample.event "S1" "Alice" "Class 10A" "2025-10-08"
                             "09:30:00"])
                = Returned [Sample.event "S1" "Alice" "Class 10A" "2025-10-08"
                              "09:30:00"]) by reflexivity.
  assert (H1 : OSError ≠ UnpicklingError) by discriminate.
  assert (H2 : OSError ≠ EOFError) by discriminate.
  destruct (@load_damaged_pickle_empty Q) as (_ & Hcaught & Hother).
  destruct (Hcaught EOFError He) as (Hload & _ & Hinit).
  destruct (Hother OSError H1 H2) as (Hraise & _).
  split_and!; [exact He | exact Hload | exact Hrs | exact (Hinit _ _ Hrs)
               | exact H1 | exact H2 | exact Hraise].
Defined.

(** The capture of the two students called Alex. *)
Lemma mark_attendance_names_once_witness :
  reported Sample.namesakes_capture.2 = None
  ∧ NoDup (returned Sample.namesakes_capture.2)
  ∧ "Alex" ∈ returned Sample.namesakes_capture.2.
Proof.
  destruct (proj1 mark_attendance_names_once Q Sample.dist1
              (Returned [0; 5]%Q) Sample.clock0 Flushed
              (Sample.manager Sample.namesakes []))
    as (Hnd & new & Hnew & Hiff).
  assert (Hnone : reported Sample.namesakes_capture.2 = None) by reflexivity.
  split_and!; [exact Hnone | exact Hnd |].
  apply (Hiff Hnone). vm_compute in Hnew. subst new. left.
Defined.

(** * Further properties of the code *)

(** ** Lookup in the store *)

Lemma dict_get_elem_of {V : Type} (k : string) (v : V) (d : dict V) :
  dict_get k d = Some v → (k, v) ∈ d.
Proof.
  induction d as [|[k' v'] d IH]; [done|]. simpl.
  destruct (decide (k = k')) as [->|Hne]; intros Hg.
  - simplify_eq. left.
  - right. by apply IH.
Qed.

Lemma dict_get_None {V : Type} (k : string) (d : dict V) :
  dict_get k d = None ↔ k ∉ dict_keys d.
Proof.
  unfold dict_keys. induction d as [|[k' v'] d IH].
  - split; [intros _ H; by apply elem_of_nil in H | done].
  - cbn [dict_get]. rewrite fmap_cons, not_elem_of_cons. cbn [fst].
    destruct (decide (k = k')) as [->|Hne]; [split; [done | tauto]|].
    rewrite IH. tauto.
Qed.

Lemma dict_get_lookup {V : Type} (i : nat) (k : string) (v : V) (d : dict V) :
  NoDup (dict_keys d) → d !! i = Some (k, v) → dict_get k d = Some v.
Proof.
  unfold dict_keys. revert i.
  induction d as [|[k' v'] d IH]; intros i Hnd Hi; [done|].
  rewrite fmap_cons in Hnd. apply NoDup_cons in Hnd as [Hnotin Hnd]. simpl.
  destruct i as [|i]; simplify_eq/=.
  - by rewrite decide_True.
  - rewrite decide_False; [by eapply IH|].
    intros ->. destruct Hnotin.
    apply list_elem_of_fmap. exists (k', v). split; [done|].
    by eapply list_elem_of_lookup_2.
Qed.

Lemma dict_get_set_ne {V : Type} (k k' : string) (v : V) (d : dict V) :
  k' ≠ k → dict_get k' (dict_set k v d) = dict_get k' d.
Proof.
  intros Hne. induction d as [|[k0 v0] d IH]; simpl.
  - by rewrite decide_False.
  - destruct (decide (k = k0)) as [->|Hk]; simpl.
    + by rewrite !decide_False.
    + destruct (decide (k' = k0)); [done | apply IH].
Qed.

(** ** Matching and capture *)

Section MoreCapture.
Context {encoding : Type} (dist : encoding → encoding → Q).

Implicit Types (students : dict (student encoding)) (candidate : encoding).
Implicit Types (records : list attendance_record).
Implicit Types (self : AttendanceData encoding).

(** X1: on a non-empty store [match_face] never raises; it answers no
    match exactly when every enrolled encoding is farther from the
    candidate than the tolerance, and a key it returns is the key of the
    first nearest entry, whose distance is at most the tolerance. *)
Theorem match_face_rejects_unknown students candidate tol :
  students ≠ [] →
  (∀ e, match_face dist students candidate tol ≠ Raised e)
  ∧ (match_face dist students candidate tol = Returned None
     ↔ ∀ e, e ∈ students → (tol < dist (face_encoding e.2) candidate)%Q)
  ∧ (∀ sid, match_face dist students candidate tol = Returned (Some sid) →
       ∃ i s, nearest dist students candidate i sid s
              ∧ (dist (face_encoding s) candidate <= tol)%Q).
Proof.
  intros Hne.
  destruct (nearest_exists dist students candidate Hne) as (i & sid & s & Hn).
  destruct (match_face_nearest dist students candidate tol i sid s Hn)
    as [_ Hm].
  rewrite Hm. destruct Hn as (Hi & Hmin & Hfirst).
  destruct (Qle_bool (dist (face_encoding s) candidate) tol) eqn:Hle.
  - apply Qle_bool_iff in Hle. split_and!; [done | |].
    + split; [done|]. intros Hall. exfalso.
      apply (Qlt_not_le _ _ (Hall (sid, s) (list_elem_of_lookup_2 _ _ _ Hi))).
      exact Hle.
    + intros sid' [= <-]. exists i, s. done.
  - assert (Hlt : (tol < dist (face_encoding s) candidate)%Q).
    { apply Qnot_le_lt. intros H. apply Qle_bool_iff in H. congruence. }
    split_and!; [done | | done].
    split; [|done]. intros _ e [j Hj]%list_elem_of_lookup_1.
    eapply Qlt_le_trans; [exact Hlt | by eapply Hmin].
Qed.

Lemma set_attendance_records_same self :
  set_attendance_records (attendance_records self) self = self.
Proof. by destruct self. Qed.

Lemma mark_loop_empty_store clock i candidate rest records marked :
  mark_loop dist [] clock i (candidate :: rest) records marked
  = LoopReturn records.
Proof. done. Qed.

(** One iteration of the loop on a non-empty store, in terms of the
    nearest entry. *)
Lemma mark_loop_step students candidate :
  students ≠ [] →
  ∃ j sid s sd,
    nearest dist students candidate j sid s
    ∧ dict_get sid students = Some sd
    ∧ (NoDup (dict_keys students) → sd = s)
    ∧ ∀ clock i rest records marked,
      mark_loop dist students clock i (candidate :: rest) records marked
      = if Qle_bool (dist (face_encoding s) candidate) tolerance
        then if already_marked sid (clock i).1 records
             then mark_loop dist students clock (S i) rest records marked
             else mark_loop dist students clock (S i) rest
                    (records ++ [ {| student_id := sid; rec_name := name sd;
                                     rec_class := class sd;
                                     rec_date := (clock i).1;
                                     rec_time := (clock i).2;
                                     status := "Present" |} ])
                    (marked ++ [name sd])
        else mark_loop dist students clock (S i) rest records marked.
Proof.
  intros Hne.
  destruct (nearest_exists dist students candidate Hne) as (j & sid & s & Hn).
  destruct (match_face_nearest dist students candidate tolerance j sid s Hn)
    as [_ Hm].
  pose proof Hn as (Hj & _ & _).
  destruct (dict_get sid students) as [sd|] eqn:Hg.
  2:{ apply dict_get_None in Hg. destruct Hg.
      apply list_elem_of_fmap. exists (sid, s). split; [done|].
      by eapply list_elem_of_lookup_2. }
  exists j, sid, s, sd. split_and!; [done | done | |].
  - intros Hnd. pose proof (dict_get_lookup j sid s students Hnd Hj). congruence.
  - intros clock i rest records marked. cbn [mark_loop].
    destruct (dict_values students) as [|v vs] eqn:Hv.
    { destruct students; [done | discriminate Hv]. }
    rewrite Hm. destruct (Qle_bool _ tolerance); [|done].
    rewrite Hg. unfold record_if_new.
    by destruct (already_marked sid (clock i).1 records).
Qed.

Lemma mark_loop_no_raise students clock faces :
  ∀ i records marked e records',
    mark_loop dist students clock i faces records marked ≠ LoopRaise e records'.
Proof.
  induction faces as [|candidate rest IH]; intros i records marked e records';
    [done|].
  destruct students as [|entry students]; [done|].
  destruct (mark_loop_step (entry :: students) candidate)
    as (j & sid & s & sd & _ & _ & _ & ->); [done|].
  repeat case_match; apply IH.
Qed.

(** X2: the loop of [mark_attendance] never raises: an error is reported
    only when the detection of faces raised, or when events were
    recorded and the write of the ledger failed. *)
Theorem mark_attendance_reports_only_io img clock w self e :
  reported (mark_attendance dist img clock w self).2 = Some e →
  img = Raised e ∨ (w ≠ Flushed ∧ e = OSError).
Proof.
  unfold mark_attendance. destruct img as [faces|e']; simpl.
  2:{ intros [= ->]. by left. }
  pose proof (mark_loop_no_raise (students self) clock faces 0
                (attendance_records self) []) as Hnr.
  destruct (mark_loop dist (students self) clock 0 faces
              (attendance_records self) []) as [records [|n marked]| |e' records];
    simpl; try done.
  - destruct w; simpl; [done | |]; intros [= <-]; by right.
  - by destruct (Hnr e' records).
Qed.

Lemma mark_loop_nothing_near students clock faces :
  (∀ f e, f ∈ faces → e ∈ students →
     (tolerance < dist (face_encoding e.2) f)%Q) →
  ∀ i records marked,
    mark_loop dist students clock i faces records marked
    = LoopDone records marked
    ∨ mark_loop dist students clock i faces records marked
      = LoopReturn records.
Proof.
  induction faces as [|candidate rest IH]; intros Hfar i records marked;
    [by left|].
  destruct students as [|entry students]; [by right|].
  destruct (mark_loop_step (entry :: students) candidate)
    as (j & sid & s & sd & Hn & _ & _ & ->); [done|].
  destruct Hn as (Hj & _ & _).
  assert (Hlt : (tolerance < dist (face_encoding s) candidate)%Q).
  { apply (Hfar candidate (sid, s)); [left | by eapply list_elem_of_lookup_2]. }
  destruct (Qle_bool _ tolerance) eqn:Hle.
  { apply Qle_bool_iff in Hle. destruct (Qlt_not_le _ _ Hlt Hle). }
  apply IH. intros f e Hf He. apply Hfar; [by right | done].
Qed.

(** X3: when no detected face is within the tolerance of an enrolled
    encoding (so also when nobody is enrolled, or no face was detected)
    [mark_attendance] returns the empty list, reports nothing, writes
    nothing, and leaves the state as it was. *)
Theorem mark_attendance_nothing_near faces clock w self :
  (∀ f e, f ∈ faces → e ∈ students self →
     (tolerance < dist (face_encoding e.2) f)%Q) →
  mark_attendance dist (Returned faces) clock w self
  = (self, {| returned := []; reported := None |}).
Proof.
  intros Hfar. unfold mark_attendance.
  destruct (mark_loop_nothing_near (students self) clock faces Hfar 0
              (attendance_records self) []) as [-> | ->];
    by rewrite set_attendance_records_same.
Qed.

(** X4: a capture of one face whose nearest enrolled entry [(sid, s)] is
    within the tolerance: when the ledger has no event for [sid] on the
    day read from the clock, one event with the key, name and class of
    that entry is appended and saved and the name is returned; when it
    has one, nothing changes and the empty list is returned. *)
Theorem mark_attendance_one_face candidate clock self i sid s :
  NoDup (dict_keys (students self)) →
  nearest dist (students self) candidate i sid s →
  (dist (face_encoding s) candidate <= tolerance)%Q →
  (events_for sid (clock 0%nat).1 (attendance_records self) = [] →
   mark_attendance dist (Returned [candidate]) clock Flushed self
   = ({| students := students self;
         attendance_records :=
           attendance_records self
           ++ [ {| student_id := sid; rec_name := name s;
                   rec_class := class s; rec_date := (clock 0%nat).1;
                   rec_time := (clock 0%nat).2; status := "Present" |} ];
         students_file := students_file self;
         attendance_file :=
           Pickle (attendance_records self
                   ++ [ {| student_id := sid; rec_name := name s;
                           rec_class := class s; rec_date := (clock 0%nat).1;
                           rec_time := (clock 0%nat).2;
                           status := "Present" |} ]) |},
      {| returned := [name s]; reported := None |}))
  ∧ (events_for sid (clock 0%nat).1 (attendance_records self) ≠ [] →
     ∀ w, mark_attendance dist (Returned [candidate]) clock w self
          = (self, {| returned := []; reported := None |})).
Proof.
  intros Hnd Hn Hle.
  assert (Hne : students self ≠ []).
  { destruct Hn as (Hi & _). intros Heq. rewrite Heq in Hi. done. }
  destruct (mark_loop_step (students self) candidate Hne)
    as (j & sid' & s' & sd & Hn' & _ & Hsd & Hstep).
  specialize (Hsd Hnd). subst sd.
  assert (j = i) as ->.
  { eapply first_min_unique; by eapply nearest_first_min. }
  destruct Hn as (Hi & _), Hn' as (Hi' & _). simplify_eq.
  apply Qle_bool_iff in Hle. rewrite Hle in Hstep.
  unfold mark_attendance. rewrite Hstep. split.
  - intros He. apply already_marked_events in He. rewrite He. simpl.
    unfold list_set. simpl. rewrite (right_id_L ∅ (∪)).
    by rewrite elements_singleton.
  - intros He w.
    destruct (already_marked sid (clock 0%nat).1 (attendance_records self))
      eqn:Hm.
    + simpl. by rewrite set_attendance_records_same.
    + apply already_marked_events in Hm. done.
Qed.

Lemma recorded_from_weaken students clock lo hi lo' hi' r :
  (lo' ≤ lo)%nat → (hi ≤ hi')%nat →
  recorded_from students clock lo hi r → recorded_from students clock lo' hi' r.
Proof.
  intros Hlo Hhi (sd & j & ? & ? & ? & ? & ? & ? & ?).
  exists sd, j. split_and!; try done; lia.
Qed.

Lemma mark_loop_new_events students clock faces :
  ∀ i records marked,
    ∃ new,
      exit_records (mark_loop dist students clock i faces records marked)
      = records ++ new
      ∧ (length new ≤ length faces)%nat
      ∧ Forall (recorded_from students clock i (i + length faces)) new.
Proof.
  induction faces as [|candidate rest IH]; intros i records marked.
  { exists []. by rewrite app_nil_r. }
  destruct students as [|entry students].
  { exists []. rewrite app_nil_r. split_and!; [done | simpl; lia | constructor]. }
  destruct (mark_loop_step (entry :: students) candidate)
    as (j & sid & s & sd & _ & Hg & _ & Hstep); [done|].
  rewrite Hstep. set (ss := entry :: students) in *.
  assert (Hkeep : ∀ records' marked',
            ∃ new, exit_records (mark_loop dist ss clock (S i) rest
                                   records' marked') = records' ++ new
                   ∧ (length new ≤ length (candidate :: rest))%nat
                   ∧ Forall (recorded_from ss clock i
                               (i + length (candidate :: rest))) new).
  { intros records' marked'.
    destruct (IH (S i) records' marked') as (new & Hnew & Hlen & Hall).
    exists new. split_and!; [done | simpl; lia |].
    eapply Forall_impl; [exact Hall|].
    intros r. apply recorded_from_weaken; simpl; lia. }
  destruct (Qle_bool _ tolerance); [|apply Hkeep].
  destruct (already_marked sid (clock i).1 records); [apply Hkeep|].
  match goal with
  | |- context [mark_loop _ _ _ _ _ (records ++ [?r]) ?m] =>
      destruct (IH (S i) (records ++ [r]) m) as (new & Hnew & Hlen & Hall);
      exists (r :: new)
  end.
  rewrite Hnew, <- app_assoc. split_and!; [done | simpl; lia |].
  constructor.
  - exists sd, i. simpl. split_and!; try done; lia.
  - eapply Forall_impl; [exact Hall|].
    intros r. apply recorded_from_weaken; simpl; lia.
Qed.

Lemma mark_attendance_exit_records faces clock w self :
  attendance_records (mark_attendance dist (Returned faces) clock w self).1
  = exit_records (mark_loop dist (students self) clock 0 faces
                    (attendance_records self) []).
Proof.
  unfold mark_attendance.
  destruct (mark_loop dist (students self) clock 0 faces
              (attendance_records self) []) as [records [|n marked]| |];
    try done.
  by destruct w.
Qed.

Lemma new_events_recorded_from faces clock w self :
  ∃ new,
    attendance_records (mark_attendance dist (Returned faces) clock w self).1
    = attendance_records self ++ new
    ∧ ∀ r, r ∈ new → recorded_from (students self) clock 0 (length faces) r.
Proof.
  rewrite mark_attendance_exit_records.
  destruct (mark_loop_new_events (students self) clock faces 0
              (attendance_records self) []) as (new & Hnew & _ & Hall).
  exists new. split; [done|]. by apply Forall_forall.
Qed.

(** X5: the events that a capture appends are at most one per detected
    face, and each carries the name and class that the store holds for
    its key, the status "Present", and the date and time read from the
    clock in one of the iterations. *)
Theorem mark_attendance_new_events faces clock w self :
  ∃ new,
    attendance_records (mark_attendance dist (Returned faces) clock w self).1
    = attendance_records self ++ new
    ∧ (length new ≤ length faces)%nat
    ∧ ∀ r, r ∈ new → recorded_from (students self) clock 0 (length faces) r.
Proof.
  rewrite mark_attendance_exit_records.
  destruct (mark_loop_new_events (students self) clock faces 0
              (attendance_records self) []) as (new & Hnew & Hlen & Hall).
  exists new. split_and!; [done | done |].
  by apply Forall_forall.
Qed.

Lemma already_marked_app sid d records records' :
  already_marked sid d (records ++ records')
  = already_marked sid d records || already_marked sid d records'.
Proof. apply existsb_app. Qed.

Lemma mark_loop_repeat students clock clock' faces :
  (∀ i, (clock' i).1 = (clock i).1) →
  ∀ i records marked records' marked' ext,
    records'
    = exit_records (mark_loop dist students clock i faces records marked)
      ++ ext →
    mark_loop dist students clock' i faces records' marked'
    = LoopDone records' marked'
    ∨ mark_loop dist students clock' i faces records' marked'
      = LoopReturn records'.
Proof.
  intros Hclock.
  induction faces as [|candidate rest IH];
    intros i records marked records' marked' ext Hext; [by left|].
  destruct students as [|entry students]; [by right|].
  destruct (mark_loop_step (entry :: students) candidate)
    as (j & sid & s & sd & _ & _ & _ & Hstep); [done|].
  rewrite Hstep in Hext. rewrite Hstep. set (ss := entry :: students) in *.
  destruct (Qle_bool _ tolerance); [|by eapply IH].
  rewrite Hclock.
  destruct (already_marked sid (clock i).1 records) eqn:Hm.
  - destruct (mark_loop_appends dist ss clock rest (S i) records marked)
      as (new & Hnew & _).
    rewrite Hnew in Hext.
    assert (already_marked sid (clock i).1 records' = true) as ->.
    { rewrite Hext, !already_marked_app, Hm. done. }
    eapply IH. by rewrite Hnew.
  - match type of Hext with
    | context [mark_loop _ _ _ _ _ (records ++ [?r]) ?m] =>
        destruct (mark_loop_appends dist ss clock rest (S i)
                    (records ++ [r]) m) as (new & Hnew & _);
        assert (Hr : already_marked sid (clock i).1 [r] = true)
          by (unfold already_marked; simpl;
              by rewrite !bool_decide_eq_true_2)
    end.
    assert (already_marked sid (clock i).1 records' = true) as ->.
    { rewrite Hext, Hnew, !already_marked_app, Hr.
      by rewrite !orb_true_r. }
    eapply IH. exact Hext.
Qed.

(** X6: taking the same capture again while the clock shows the same
    days records nothing more: the second call returns the empty list,
    reports nothing and leaves the state of the first call as it is,
    whatever the writes of the two calls do. *)
Theorem mark_attendance_repeat faces clock clock' w w' self :
  (∀ i, (clock' i).1 = (clock i).1) →
  mark_attendance dist (Returned faces) clock' w'
    (mark_attendance dist (Returned faces) clock w self).1
  = ((mark_attendance dist (Returned faces) clock w self).1,
     {| returned := []; reported := None |}).
Proof.
  intros Hclock.
  pose proof (mark_attendance_exit_records faces clock w self) as Hrec.
  pose proof (mark_attendance_students dist (Returned faces) clock w self)
    as [Hst _].
  set (s1 := (mark_attendance dist (Returned faces) clock w self).1) in *.
  unfold mark_attendance at 1. rewrite Hst.
  destruct (mark_loop_repeat (students self) clock clock' faces Hclock 0
              (attendance_records self) [] (attendance_records s1) [] [])
    as [-> | ->]; [by rewrite app_nil_r | |];
    by rewrite set_attendance_records_same.
Qed.
End MoreCapture.

(** ** Enrollment and restart *)

Section MoreStore.
Context {encoding : Type} (dist : encoding → encoding → Q).

Implicit Types (self : AttendanceData encoding).

Lemma starts_with_slash_jpg (sid : string) :
  starts_with_slash (sid +:+ ".jpg") = starts_with_slash sid.
Proof. by destruct sid. Qed.

(** The photo path: an identifier that starts with a slash is an
    absolute path, which [os.path.join] keeps as it is. *)
Lemma photo_path (sid : string) :
  path_join images_dir (sid +:+ ".jpg")
  = if starts_with_slash sid then sid +:+ ".jpg"
    else images_dir +:+ "/" +:+ sid +:+ ".jpg".
Proof.
  unfold path_join. rewrite starts_with_slash_jpg.
  by destruct (starts_with_slash sid).
Qed.

(** What a submission does, case by case. *)
Lemma submit_registration_cases sid nm cls em buf photo now w self :
  let out := submit_registration sid nm cls em buf photo now w self in
  (out.1 = self
   ∧ (out.2 = FillAllFields ∨ out.2 = IdAlreadyExists ∨ out.2 = ProvidePhoto
      ∨ out.2 = NoFaceDetected
      ∨ ∃ e, out.2 = RegistrationFailed e
             ∧ (buf = Some (Raised e)
                ∨ image_save
                    (path_join images_dir (strip sid +:+ ".jpg")) photo
                  = Raised e)))
  ∨ (∃ e rest,
       buf = Some (Returned (Returned (e :: rest)))
       ∧ truthy sid = true ∧ truthy nm = true ∧ cls ≠ "Select Class"
       ∧ (sid ∉ dict_keys (students self))
       ∧ image_save (path_join images_dir (strip sid +:+ ".jpg")) photo
         = Returned tt
       ∧ out
         = ((save_students w
               (set_students
                  (dict_set (strip sid)
                     {| name := strip nm; class := cls; email := strip em;
                        image_path :=
                          path_join images_dir (strip sid +:+ ".jpg");
                        face_encoding := e; registration_date := now |}
                     (students self)) self)).1,
            match w with
            | Flushed => Registered
            | _ => RegistrationFailed OSError
            end)).
Proof.
  unfold submit_registration.
  destruct (truthy sid) eqn:Hsid; simpl; [|left; by auto].
  destruct (truthy nm) eqn:Hnm; simpl; [|left; by auto].
  case_bool_decide as Hcls; simpl; [left; by auto|].
  unfold dict_mem. case_bool_decide as Hin; [left; by auto|].
  destruct buf as [[img|e]|]; [|left; by eauto 10 | left; by auto].
  destruct img as [[|e rest]|e]; [left; by auto 10 | | left; by auto 10].
  destruct (register_student_photo (strip sid) (strip nm) cls (strip em)
              e rest photo now w self) as [Hraise Hsave].
  destruct (image_save (path_join images_dir (strip sid +:+ ".jpg")) photo)
    as [[]|x] eqn:Hphoto.
  - right. exists e, rest. rewrite (Hsave eq_refl).
    split_and!; try done. by destruct w.
  - left. rewrite (Hraise x eq_refl). simpl. split; [done|]. eauto 10.
Qed.

(** X7: a submission that is turned down (a required field missing,
    the identifier already a key, no photo, no face detected, a photo
    that cannot be opened, or a photo file that cannot be written)
    changes neither the state in memory nor the files. *)
Theorem submit_registration_rejected_unchanged sid nm cls em buf photo now w
    self :
  (submit_registration sid nm cls em buf photo now w self).2 = FillAllFields
  ∨ (submit_registration sid nm cls em buf photo now w self).2
    = IdAlreadyExists
  ∨ (submit_registration sid nm cls em buf photo now w self).2 = ProvidePhoto
  ∨ (submit_registration sid nm cls em buf photo now w self).2
    = NoFaceDetected
  ∨ (∃ e, buf = Some (Raised e))
  ∨ (∃ e, image_save (path_join images_dir (strip sid +:+ ".jpg")) photo
          = Raised e) →
  (submit_registration sid nm cls em buf photo now w self).1 = self.
Proof.
  intros Hmsg.
  destruct (submit_registration_cases sid nm cls em buf photo now w self)
    as [[Hsame _] | (e & rest & Hbuf & _ & _ & _ & _ & Hphoto & Hout)];
    [done|].
  rewrite Hout in Hmsg. simpl in Hmsg.
  destruct Hmsg as [?|[?|[?|[?|[[e' ?]|[e' ?]]]]]]; destruct w; congruence.
Qed.

(** X8: a submission answered as registered has saved the photo and
    written the students file, and the store holds, under the stripped
    identifier, a record with the stripped name and email, the class,
    the first detected encoding, and the photo path, which is the
    stripped identifier with ".jpg" under [images_dir], or that name
    alone when the identifier starts with a slash; the other keys hold
    what they held, a new key comes last in the iteration order, and the
    ledger is untouched. *)
Theorem submit_registration_registered sid nm cls em buf photo now w self :
  (submit_registration sid nm cls em buf photo now w self).2 = Registered →
  let self' := (submit_registration sid nm cls em buf photo now w self).1 in
  w = Flushed
  ∧ (sid ∉ dict_keys (students self))
  ∧ image_save (path_join images_dir (strip sid +:+ ".jpg")) photo
    = Returned tt
  ∧ (∃ e rest,
       buf = Some (Returned (Returned (e :: rest)))
       ∧ dict_get (strip sid) (students self')
         = Some {| name := strip nm; class := cls; email := strip em;
                   image_path :=
                     if starts_with_slash (strip sid)
                     then strip sid +:+ ".jpg"
                     else images_dir +:+ "/" +:+ strip sid +:+ ".jpg";
                   face_encoding := e; registration_date := now |})
  ∧ (∀ k, k ≠ strip sid →
       dict_get k (students self') = dict_get k (students self))
  ∧ (strip sid ∉ dict_keys (students self) →
     dict_keys (students self') = dict_keys (students self) ++ [strip sid])
  ∧ (strip sid ∈ dict_keys (students self) →
     dict_keys (students self') = dict_keys (students self))
  ∧ students_file self' = Pickle (students self')
  ∧ attendance_records self' = attendance_records self
  ∧ attendance_file self' = attendance_file self.
Proof.
  intros Hreg self'. subst self'.
  destruct (submit_registration_cases sid nm cls em buf photo now w self)
    as [[_ Hmsg] | (e & rest & Hbuf & _ & _ & _ & Hnew & Hphoto & Hout)].
  { rewrite Hreg in Hmsg.
    destruct Hmsg as [?|[?|[?|[?|(e & ? & _)]]]]; discriminate. }
  rewrite Hout in Hreg |- *. destruct w; [|discriminate..]. simpl.
  split_and!; try done.
  - exists e, rest. split; [done|]. rewrite dict_get_set.
    by rewrite photo_path.
  - intros k Hk. by apply dict_get_set_ne.
  - intros Hk. by rewrite dict_keys_set, decide_False.
  - intros Hk. by rewrite dict_keys_set, decide_True.
Qed.

(** X9: the test of the required fields looks at the identifier before
    it is stripped, so an identifier made of blanks only counts as
    filled in; with a face detected, the photo path then ends in a file
    name ".jpg", which has no extension, [image.save] raises
    [ValueError], the form answers "Registration failed", and nothing is
    enrolled or written. *)
Theorem submit_registration_blank_identifier sid nm cls em e rest photo now w
    self :
  truthy sid = true → strip sid = EmptyString →
  truthy nm = true → cls ≠ "Select Class" →
  sid ∉ dict_keys (students self) →
  submit_registration sid nm cls em
    (Some (Returned (Returned (e :: rest)))) photo now w self
  = (self, RegistrationFailed ValueError).
Proof.
  intros Hsid Hstrip Hnm Hcls Hnew.
  unfold submit_registration. rewrite Hsid, Hnm.
  rewrite bool_decide_eq_false_2 by done. simpl.
  unfold dict_mem. rewrite bool_decide_eq_false_2 by done.
  rewrite Hstrip.
  by rewrite (proj1 (register_student_photo EmptyString (strip nm) cls
                       (strip em) e rest photo now w self)
                ValueError eq_refl).
Qed.

Lemma submit_registration_keys sid nm cls em buf photo now w self k :
  k ∈ dict_keys (students self) →
  k ∈ dict_keys
        (students (submit_registration sid nm cls em buf photo now w self).1).
Proof.
  intros Hk.
  destruct (submit_registration_cases sid nm cls em buf photo now w self)
    as [[-> _] | (e & rest & _ & _ & _ & _ & _ & _ & ->)]; [done|].
  destruct w; simpl; rewrite dict_keys_set; case_decide; try done;
    apply elem_of_app; by left.
Qed.

Lemma exec_referenced c self :
  referenced (students self) (attendance_records self) →
  referenced (students (exec dist c self)) (attendance_records (exec dist c self)).
Proof.
  intros Href.
  destruct c as [sid nm cls em buf photo now w|img clock w|w|w1 w2]; simpl.
  - rewrite submit_registration_records. intros r Hr.
    destruct (Href r Hr) as [Hk Hs]. split; [|done].
    by apply submit_registration_keys.
  - rewrite (proj1 (mark_attendance_students dist img clock w self)).
    destruct img as [faces|e]; [|done].
    destruct (new_events_recorded_from dist faces clock w self)
      as (new & -> & Hall).
    intros r [Hr | Hr]%elem_of_app; [by apply Href|].
    destruct (Hall r Hr) as (sd & j & Hg & _ & _ & Hs & _). split; [|done].
    destruct (decide (student_id r ∈ dict_keys (students self))) as [|Hn];
      [done|].
    apply dict_get_None in Hn. congruence.
  - destruct w; intros r Hr; by apply elem_of_nil in Hr.
  - destruct w1, w2; intros r Hr; by apply elem_of_nil in Hr.
Qed.

(** X10: when every event of the ledger refers to an enrolled key and
    has the status "Present", this stays so after every sequence of
    submissions, captures, clears and resets. *)
Theorem run_referenced cs self :
  referenced (students self) (attendance_records self) →
  referenced (students (run dist cs self))
    (attendance_records (run dist cs self)).
Proof.
  revert self. induction cs as [|c cs IH]; intros self Href; [done|].
  simpl. apply IH. by apply exec_referenced.
Qed.

Lemma init_synced sf af self : init sf af = Returned self → synced self.
Proof.
  unfold init.
  destruct (load_students sf) as [ss|] eqn:Hs; [|done].
  destruct (load_attendance af) as [rs|] eqn:Hr; [|done].
  intros [= <-]. by split.
Qed.

Lemma synced_init self :
  synced self → init (students_file self) (attendance_file self) = Returned self.
Proof. intros [Hs Hr]. unfold init. rewrite Hs, Hr. by destruct self. Qed.

Lemma exec_synced c self :
  flushed c = true → synced self → synced (exec dist c self).
Proof.
  intros Hf [Hs Hr].
  destruct c as [sid nm cls em buf photo now w|img clock w|w|w1 w2]; simpl.
  - destruct w; [|done..].
    destruct (submit_registration_cases sid nm cls em buf photo now Flushed
                self)
      as [[-> _] | (e & rest & _ & _ & _ & _ & _ & _ & ->)]; [done|].
    by split.
  - destruct w; [|done..]. unfold mark_attendance.
    destruct img as [faces|e]; [|done].
    destruct (mark_loop_appends dist (students self) clock faces 0
                (attendance_records self) []) as (new & Hnew & Hm).
    pose proof (mark_loop_no_raise dist (students self) clock faces 0
                  (attendance_records self) []) as Hnr.
    destruct (mark_loop dist (students self) clock 0 faces
                (attendance_records self) [])
      as [records [|n marked]|records|e records]; simpl in *.
    + destruct new; [|done]. rewrite app_nil_r in Hnew. subst records.
      by rewrite set_attendance_records_same.
    + by split.
    + destruct Hm as [-> _]. rewrite app_nil_r in Hnew. subst records.
      by rewrite set_attendance_records_same.
    + by destruct (Hnr e records).
  - destruct w; [|done..]. by split.
  - by destruct w1, w2.
Qed.

(** X11: when every write goes through, the files follow the state in
    memory: after a start from the two files and any sequence of
    submissions, captures, clears and resets, a new start from the files
    gives exactly the state that the sequence has reached. *)
Theorem restart_round_trip sf af self (cs : list (command encoding)) :
  init sf af = Returned self →
  forallb flushed cs = true →
  init (students_file (run dist cs self)) (attendance_file (run dist cs self))
  = Returned (run dist cs self).
Proof.
  intros Hinit Hcs. apply synced_init. apply init_synced in Hinit.
  revert self Hinit. induction cs as [|c cs IH]; intros self Hsync; [done|].
  simpl in Hcs. apply andb_true_iff in Hcs as [Hc Hcs].
  simpl. apply IH; [done|]. by apply exec_synced.
Qed.

End MoreStore.

(** ** Statistics and reports *)

Section MoreAggregator.
Context {encoding : Type}.

Implicit Types (records : list attendance_record).
Implicit Types (self : AttendanceData encoding).

Lemma deduplicated_cons_inv r records :
  deduplicated (r :: records) →
  deduplicated records
  ∧ events_for (student_id r) (rec_date r) records = [].
Proof.
  intros Hd. split.
  - intros sid d. specialize (Hd sid d). unfold events_for in *.
    rewrite filter_cons in Hd. case_decide; simpl in Hd; lia.
  - specialize (Hd (student_id r) (rec_date r)). unfold events_for in *.
    rewrite filter_cons, decide_True in Hd by done. simpl in Hd.
    destruct (filter _ records); [done | simpl in Hd; lia].
Qed.

Lemma deduplicated_ids_NoDup d records :
  deduplicated records →
  NoDup (student_id <$> filter (λ r, rec_date r = d) records).
Proof.
  induction records as [|r records IH]; intros Hd; [constructor|].
  apply deduplicated_cons_inv in Hd as [Hd Hnone].
  rewrite filter_cons. case_decide as Hdate; [|by apply IH].
  rewrite fmap_cons. apply NoDup_cons. split; [|by apply IH].
  intros (r' & Hid & Hr')%list_elem_of_fmap.
  apply list_elem_of_filter in Hr' as [Hd' Hr'].
  assert (Hin : r' ∈ events_for (student_id r) (rec_date r) records).
  { apply list_elem_of_filter. split; [|done]. split; congruence. }
  rewrite Hnone in Hin. by apply elem_of_nil in Hin.
Qed.

(** X13: on a ledger with at most one event per identity and date, the
    table "Today's Attendance" has as many rows as the statistics count
    students present today. *)
Theorem today_attendance_count (today : string) self :
  deduplicated (attendance_records self) →
  Z.of_nat (length (today_attendance today self))
  = present_today (get_attendance_stats today self).
Proof.
  intros Hd. simpl. f_equal. unfold present_ids, today_attendance.
  rewrite size_list_to_set by by apply deduplicated_ids_NoDup.
  by rewrite length_fmap.
Qed.

Lemma present_ids_enrolled (today : string) self :
  NoDup (dict_keys (students self)) →
  (∀ r, r ∈ attendance_records self → rec_date r = today →
        student_id r ∈ dict_keys (students self)) →
  (size (present_ids today (attendance_records self))
   ≤ length (students self))%nat.
Proof.
  intros Hnd Hin.
  replace (length (students self)) with (length (dict_keys (students self)))
    by (unfold dict_keys; by rewrite length_fmap).
  rewrite <- (size_list_to_set (C:=gset string)) by done.
  apply subseteq_size. intros k Hk.
  apply elem_of_present_ids in Hk as (r & Hr & <- & Hd).
  apply elem_of_list_to_set. by apply Hin.
Qed.

(** X14: when the keys of the store are distinct and today's events all
    refer to enrolled keys, the statistics are within their ranges: the
    students present are at most those enrolled, the absent ones are not
    negative, and the rate lies between 0 and 100. *)
Theorem get_attendance_stats_bounds (today : string) self :
  NoDup (dict_keys (students self)) →
  (∀ r, r ∈ attendance_records self → rec_date r = today →
        student_id r ∈ dict_keys (students self)) →
  let s := get_attendance_stats today self in
  (0 ≤ present_today s ≤ total_students s)%Z
  ∧ (0 ≤ absent_today s ≤ total_students s)%Z
  ∧ (0 <= attendance_rate s)%Q ∧ (attendance_rate s <= 100)%Q.
Proof.
  intros Hnd Hin. pose proof (present_ids_enrolled today self Hnd Hin) as Hle.
  unfold get_attendance_stats.
  cbn [total_students present_today absent_today attendance_rate].
  set (p := size (present_ids today (attendance_records self))) in *.
  set (t := length (students self)) in *.
  assert (Hrate :
    (0 <= (if (0 <? Z.of_nat t)%Z
           then round64 (round64 (inject_Z (Z.of_nat p) / inject_Z (Z.of_nat t))
                         * 100)
           else 0))%Q
    ∧ ((if (0 <? Z.of_nat t)%Z
        then round64 (round64 (inject_Z (Z.of_nat p) / inject_Z (Z.of_nat t))
                      * 100)
        else 0) <= 100)%Q).
  { destruct (0 <? Z.of_nat t)%Z eqn:Ht; [|done].
    apply Z.ltb_lt in Ht. apply percentage_bounds; lia. }
  destruct Hrate as [Hr0 Hr100]. split_and!; try lia; done.
Qed.

Lemma row_of_status d records (e : string * student encoding) :
  (row_status (row_of d records e) = "Present"
   ↔ e.1 ∈ present_ids d records)
  ∧ (row_status (row_of d records e) = "Absent"
     ↔ events_for e.1 d records = []).
Proof.
  unfold row_of. simpl.
  pose proof (elem_of_present_ids e.1 d records) as He.
  pose proof (events_for_nonempty e.1 d records) as Hn.
  case_decide as Hq; split; split; try done.
  - intros Hp. apply He, Hn in Hp. done.
  - intros _. apply He, Hn. done.
Qed.

(** The rows of the report for any choice of the class filter. *)
Lemma report_data_filter (date_str selected_class : string) self :
  report_data date_str selected_class self
  = row_of date_str (attendance_records self)
    <$> filter (λ e, selected_class = "All Classes" ∨ class e.2 = selected_class)
          (students self).
Proof.
  unfold report_data.
  induction (students self) as [|[sid student_data] ss IH]; [done|].
  rewrite filter_cons. cbn [mbind list_bind]. cbn [mbind list_bind] in IH.
  rewrite IH. clear IH.
  assert (Hrow :
    {| row_student_id := sid; row_name := name student_data;
       row_class := class student_data;
       row_status :=
         if bool_decide (sid ∈ present_ids date_str (attendance_records self))
         then "Present" else "Absent" |}
    = row_of date_str (attendance_records self) (sid, student_data)).
  { unfold row_of. simpl. f_equal.
    destruct (row_of_status date_str (attendance_records self)
                (sid, student_data)) as [Hp Ha].
    unfold row_of in Hp, Ha. simpl in Hp, Ha.
    case_bool_decide as Hin; case_decide as Hq; try done.
    - apply Hp in Hin. done.
    - destruct Hin. by apply Hp. }
  rewrite Hrow. clear Hrow. simpl.
  case_decide as Hc.
  - destruct Hc as [Hc | Hc]; rewrite (bool_decide_eq_true_2 _ Hc);
      by rewrite ?orb_true_r.
  - rewrite !bool_decide_eq_false_2 by tauto. done.
Qed.

Lemma present_rows_count d records (ss : dict (student encoding)) :
  length (filter (λ row, row_status row = "Present") (row_of d records <$> ss))
  = length (filter (λ k, k ∈ present_ids d records) (dict_keys ss))
  ∧ (length (filter (λ row, row_status row = "Absent")
               (row_of d records <$> ss))
     + length (filter (λ row, row_status row = "Present")
                 (row_of d records <$> ss))
     = length ss)%nat.
Proof.
  unfold dict_keys. induction ss as [|e ss [IH1 IH2]]; [done|].
  rewrite !fmap_cons, !filter_cons.
  destruct (row_of_status d records e) as [Hp Ha].
  destruct (decide (e.1 ∈ present_ids d records)) as [Hin|Hin].
  - pose proof (proj2 Hp Hin) as Hs.
    rewrite (decide_True (P:=row_status _ = "Present")) by done.
    rewrite (decide_False (P:=row_status _ = "Absent")) by (rewrite Hs; done).
    simpl. split; [by rewrite IH1 | lia].
  - assert (Hs : row_status (row_of d records e) = "Absent").
    { unfold row_of. simpl. case_decide as Hq; [done|].
      destruct Hin. apply elem_of_present_ids, events_for_nonempty. done. }
    rewrite (decide_False (P:=row_status _ = "Present")) by (rewrite Hs; done).
    rewrite (decide_True (P:=row_status _ = "Absent")) by done.
    simpl. split; [by rewrite IH1 | lia].
Qed.

Lemma filter_elem_of_count (keys : list string) (X : gset string) :
  NoDup keys → (∀ k, k ∈ X → k ∈ keys) →
  length (filter (λ k, k ∈ X) keys) = size X.
Proof.
  intros Hnd Hsub.
  rewrite <- (size_list_to_set (C:=gset string)) by by apply NoDup_filter.
  f_equal. apply set_eq. intros k.
  rewrite elem_of_list_to_set, list_elem_of_filter. split; [tauto|].
  intros Hk. split; [done | by apply Hsub].
Qed.

(** X15: when the keys of the store are distinct and the events of the
    date all refer to enrolled keys, the statistics agree with the
    unfiltered report of that date: [present_today] is its number of
    "Present" rows and [absent_today] its number of "Absent" rows. *)
Theorem get_attendance_stats_match_report (today : string) self :
  NoDup (dict_keys (students self)) →
  (∀ r, r ∈ attendance_records self → rec_date r = today →
        student_id r ∈ dict_keys (students self)) →
  let s := get_attendance_stats today self in
  let rows := report_data today "All Classes" self in
  present_today s
  = Z.of_nat (length (filter (λ row, row_status row = "Present") rows))
  ∧ absent_today s
    = Z.of_nat (length (filter (λ row, row_status row = "Absent") rows)).
Proof.
  intros Hnd Hin s rows. subst s rows. rewrite report_data_all. simpl.
  destruct (present_rows_count today (attendance_records self) (students self))
    as [Hp Hsum].
  assert (Hsize : length (filter (λ row, row_status row = "Present")
                            (row_of today (attendance_records self)
                               <$> students self))
                  = size (present_ids today (attendance_records self))).
  { rewrite Hp. apply filter_elem_of_count; [done|].
    intros k (r & Hr & <- & Hd)%elem_of_present_ids. by apply Hin. }
  rewrite Hsize in Hsum |- *. split; [done | lia].
Qed.

Lemma absent_rows_filter d records (ss : dict (student encoding)) :
  filter (λ row, row_status row = "Absent") (row_of d records <$> ss)
  = row_of d records <$> filter (λ e, events_for e.1 d records = []) ss.
Proof.
  induction ss as [|e ss IH]; [done|].
  rewrite fmap_cons, !filter_cons, IH.
  destruct (row_of_status d records e) as [_ Ha].
  destruct (decide (events_for e.1 d records = [])) as [Hq|Hq].
  - by rewrite decide_True by by apply Ha.
  - rewrite decide_False; [done|]. intros Hs. by apply Ha in Hs.
Qed.

Lemma attendance_report_eq (date_str selected_class report_type : string) self :
  attendance_report date_str selected_class report_type self
  = match report_data date_str selected_class self with
    | [] => NoStudentsFound
    | _ :: _ =>
        match (if bool_decide (report_type = "Absentees Only")
               then filter (λ row, row_status row = "Absent")
                      (report_data date_str selected_class self)
               else report_data date_str selected_class self) with
        | [] => NoRecords
        | row :: df => ReportTable (row :: df)
        end
    end.
Proof.
  unfold attendance_report.
  destruct (report_data date_str selected_class self); [done|].
  by repeat case_match.
Qed.

(** X16: what the report page shows.  With the students that pass the
    class filter in the order of the store: no such student gives "No
    students found"; any report type other than "Absentees Only" shows
    one row for each of them; "Absentees Only" shows the rows of those
    without an event on the date, and "No records to display" when each
    of them has one. *)
Theorem attendance_report_shows (date_str selected_class report_type : string)
    self :
  let matching :=
    filter (λ e, selected_class = "All Classes" ∨ class e.2 = selected_class)
      (students self) in
  let absent :=
    filter (λ e, events_for e.1 date_str (attendance_records self) = [])
      matching in
  (matching = [] →
   attendance_report date_str selected_class report_type self
   = NoStudentsFound)
  ∧ (matching ≠ [] → report_type ≠ "Absentees Only" →
     attendance_report date_str selected_class report_type self
     = ReportTable (row_of date_str (attendance_records self) <$> matching))
  ∧ (matching ≠ [] → absent ≠ [] →
     attendance_report date_str selected_class "Absentees Only" self
     = ReportTable (row_of date_str (attendance_records self) <$> absent))
  ∧ (matching ≠ [] → absent = [] →
     attendance_report date_str selected_class "Absentees Only" self
     = NoRecords).
Proof.
  intros matching absent. rewrite !attendance_report_eq.
  rewrite !report_data_filter. fold matching.
  rewrite absent_rows_filter. fold absent.
  split_and!.
  - by intros ->.
  - intros Hm Hrt. rewrite bool_decide_eq_false_2 by done.
    destruct matching; done.
  - intros Hm Ha. rewrite bool_decide_eq_true_2 by done.
    destruct matching; [done|]. destruct absent; done.
  - intros Hm Ha. rewrite bool_decide_eq_true_2 by done.
    rewrite Ha. destruct matching; done.
Qed.

Lemma elem_of_classes_tail self (c : string) :
  c ∈ tail (classes self) ↔ ∃ e, e ∈ students self ∧ class e.2 = c.
Proof.
  unfold classes, sorted. simpl.
  rewrite merge_sort_Permutation, elem_of_list_set.
  unfold dict_values. rewrite <- list_fmap_compose, list_elem_of_fmap.
  split; intros (e & H1 & H2); exists e; done.
Qed.

(** X17: the choices of the class filter are "All Classes" followed by
    the classes of the enrolled students, each once, in ascending
    order. *)
Theorem classes_choices self :
  classes self = "All Classes" :: tail (classes self)
  ∧ StronglySorted String.le (tail (classes self))
  ∧ NoDup (tail (classes self))
  ∧ ∀ c, c ∈ tail (classes self) ↔ ∃ e, e ∈ students self ∧ class e.2 = c.
Proof.
  split_and!; [done | | | apply elem_of_classes_tail].
  - unfold classes, sorted. simpl. apply StronglySorted_merge_sort; apply _.
  - unfold classes, sorted. simpl. rewrite merge_sort_Permutation.
    apply list_set_NoDup.
Qed.

(** X18: while somebody is enrolled, every choice that the class filter
    offers selects at least one student: the report page does not answer
    "No students found" to it. *)
Theorem offered_class_has_students (date_str c report_type : string) self :
  students self ≠ [] →
  c ∈ classes self →
  attendance_report date_str c report_type self ≠ NoStudentsFound.
Proof.
  intros Hne Hc.
  assert (Hm : filter (λ e, c = "All Classes" ∨ class e.2 = c) (students self)
               ≠ []).
  { assert (∃ e, e ∈ students self ∧ (c = "All Classes" ∨ class e.2 = c))
      as (e & He & Hpass).
    { unfold classes in Hc. apply elem_of_cons in Hc as [-> | Hc].
      - destruct (students self) as [|e ss]; [done|]. exists e. split; [left|].
        by left.
      - apply (elem_of_classes_tail self c) in Hc as (e & He & Hcls).
        exists e. auto. }
    intros Hnil.
    assert (Hin : e ∈ filter (λ e, c = "All Classes" ∨ class e.2 = c)
                        (students self))
      by (by apply list_elem_of_filter).
    rewrite Hnil in Hin. by apply elem_of_nil in Hin. }
  rewrite attendance_report_eq, report_data_filter.
  destruct (filter _ (students self)) as [|e l]; [done|].
  rewrite fmap_cons. by repeat case_match.
Qed.
End MoreAggregator.

(** ** The settings page *)

Section Settings.
Context {encoding : Type}.

Implicit Types (self : AttendanceData encoding).

Lemma settings_click_students c b self :
  is_yes c = false →
  students (settings_click c (b, self)).2 = students self
  ∧ students_file (settings_click c (b, self)).2 = students_file self.
Proof.
  destruct c as [w| |w1 w2|]; intros Hy; simpl; try done.
  - by destruct w.
  - by destruct b.
Qed.

(** X19: the students are reset only by a confirmation.  Clicks among
    which there is no "YES, I AM SURE" leave the students and their file
    as they are; that button does nothing while no confirmation is
    pending; and "CANCEL" withdraws a pending confirmation, so that a
    later "YES, I AM SURE" does nothing. *)
Theorem reset_needs_confirmation (cs : list click) (b : bool) self :
  (forallb (λ c, negb (is_yes c)) cs = true →
   students (settings_clicks cs (b, self)).2 = students self
   ∧ students_file (settings_clicks cs (b, self)).2 = students_file self)
  ∧ (∀ w1 w2, settings_click (PressYes w1 w2) (false, self) = (false, self))
  ∧ (∀ w1 w2,
       settings_clicks [PressReset; PressCancel; PressYes w1 w2] (b, self)
       = (false, self)).
Proof.
  split_and!; [|done|done].
  revert b self. induction cs as [|c cs IH]; intros b self Hcs; [done|].
  simpl in Hcs. apply andb_true_iff in Hcs as [Hc Hcs].
  apply negb_true_iff in Hc.
  destruct (settings_click_students c b self Hc) as [Hs Hf].
  unfold settings_clicks in *. cbn [foldl].
  destruct (settings_click c (b, self)) as [b' self'] eqn:Hstep.
  cbn [snd] in Hs, Hf. destruct (IH b' self' Hcs) as [H1 H2].
  split; congruence.
Qed.
End Settings.

(** ** The further properties on the sample data *)

(** Under tolerance 0.1 neither Alice (0.2) nor Bob (0.8) is matched. *)
Lemma match_face_rejects_unknown_witness :
  Sample.near_far ≠ []
  ∧ match_face Sample.dist1 Sample.near_far 0%Q (1 # 10) = Returned None
  ∧ ∀ e, e ∈ Sample.near_far →
      (1 # 10 < Sample.dist1 (face_encoding e.2) 0%Q)%Q.
Proof.
  assert (Hne : Sample.near_far ≠ []) by discriminate.
  assert (Hm : match_face Sample.dist1 Sample.near_far 0%Q (1 # 10)
               = Returned None) by reflexivity.
  destruct (match_face_rejects_unknown Sample.dist1 Sample.near_far 0%Q
              (1 # 10) Hne) as (_ & Hiff & _).
  split_and!; [exact Hne | exact Hm | exact (proj1 Hiff Hm)].
Defined.

(** The capture of the namesakes under a refused write reports the
    refusal. *)
Lemma mark_attendance_reports_only_io_witness :
  reported Sample.refused_capture.2 = Some OSError
  ∧ (Returned [0; 5]%Q = Raised OSError :> image Q
     ∨ (Refused ≠ Flushed ∧ OSError = OSError)).
Proof.
  assert (Hr : reported Sample.refused_capture.2 = Some OSError) by reflexivity.
  split; [exact Hr|].
  exact (mark_attendance_reports_only_io Sample.dist1 (Returned [0; 5]%Q)
           Sample.clock0 Refused (Sample.manager Sample.namesakes [])
           OSError Hr).
Defined.

(** A face at 3, far from Alice and Bob, records nothing. *)
Lemma mark_attendance_nothing_near_witness :
  (∀ f e, f ∈ [3%Q] → e ∈ students Sample.fresh →
     (tolerance < Sample.dist1 (face_encoding e.2) f)%Q)
  ∧ Cases.stranger_capture
    = (Sample.fresh, {| returned := []; reported := None |}).
Proof.
  assert (Hfar : ∀ f e, f ∈ [3%Q] → e ∈ students Sample.fresh →
                   (tolerance < Sample.dist1 (face_encoding e.2) f)%Q).
  { intros f e ->%list_elem_of_singleton He.
    repeat (apply elem_of_cons in He as [-> | He]; [by vm_compute|]).
    by apply elem_of_nil in He. }
  split; [exact Hfar|].
  exact (mark_attendance_nothing_near Sample.dist1 [3%Q] Sample.clock0
           Flushed Sample.fresh Hfar).
Defined.

(** A face next to Alice records her once. *)
Lemma mark_attendance_one_face_witness :
  NoDup (dict_keys (students Sample.fresh))
  ∧ nearest Sample.dist1 (students Sample.fresh) 0%Q 0 "S1" Cases.alice
  ∧ (Sample.dist1 (face_encoding Cases.alice) 0 <= tolerance)%Q
  ∧ events_for "S1" (Sample.clock0 0%nat).1
      (attendance_records Sample.fresh) = []
  ∧ attendance_records Cases.alice_capture.1 = [Cases.alice_event]
  ∧ attendance_file Cases.alice_capture.1 = Pickle [Cases.alice_event]
  ∧ returned Cases.alice_capture.2 = ["Alice"].
Proof.
  assert (Hnd : NoDup (dict_keys (students Sample.fresh))).
  { apply NoDup_cons. split; [|apply NoDup_singleton].
    intros H%list_elem_of_singleton. discriminate. }
  assert (Hn : nearest Sample.dist1 (students Sample.fresh) 0%Q 0 "S1"
                 Cases.alice).
  { split_and!; [reflexivity | |].
    - intros [|[|j]] e He; simplify_eq/=; by vm_compute.
    - intros j e Hj. lia. }
  assert (Hle : (Sample.dist1 (face_encoding Cases.alice) 0 <= tolerance)%Q)
    by (by vm_compute).
  assert (He : events_for "S1" (Sample.clock0 0%nat).1
                 (attendance_records Sample.fresh) = []) by reflexivity.
  destruct (mark_attendance_one_face Sample.dist1 0%Q Sample.clock0
              Sample.fresh 0 "S1" Cases.alice Hnd Hn Hle) as [Hnew _].
  specialize (Hnew He).
  split_and!; [exact Hnd | exact Hn | exact Hle | exact He | | |].
  - exact (f_equal (λ out, attendance_records out.1) Hnew).
  - exact (f_equal (λ out, attendance_file out.1) Hnew).
  - exact (f_equal (λ out, returned out.2) Hnew).
Defined.

(** The two events of the capture of the namesakes. *)
Lemma mark_attendance_new_events_witness :
  ∃ new,
    attendance_records Sample.namesakes_capture.1 = [] ++ new
    ∧ (length new ≤ 2)%nat
    ∧ ∀ r, r ∈ new →
        recorded_from Sample.namesakes Sample.clock0 0 2 r.
Proof.
  exact (mark_attendance_new_events Sample.dist1 [0; 5]%Q Sample.clock0
           Flushed (Sample.manager Sample.namesakes [])).
Defined.

(** The capture of Alice taken twice. *)
Lemma mark_attendance_repeat_witness :
  (∀ i, (Sample.clock0 i).1 = (Sample.clock0 i).1)
  ∧ mark_attendance Sample.dist1 (Returned [0%Q]) Sample.clock0 Refused
      Cases.alice_capture.1
    = (Cases.alice_capture.1, {| returned := []; reported := None |}).
Proof.
  assert (Hc : ∀ i, (Sample.clock0 i).1 = (Sample.clock0 i).1)
    by (intros i; reflexivity).
  split; [exact Hc|].
  exact (mark_attendance_repeat Sample.dist1 [0%Q] Sample.clock0 Sample.clock0
           Flushed Refused Sample.fresh Hc).
Defined.

(** A submission for a taken key. *)
Lemma submit_registration_rejected_unchanged_witness :
  Cases.taken_key.2 = IdAlreadyExists ∧ Cases.taken_key.1 = Sample.fresh.
Proof.
  assert (Hm : Cases.taken_key.2 = IdAlreadyExists) by reflexivity.
  split; [exact Hm|].
  apply (submit_registration_rejected_unchanged "S1" "Mallory" "Class 9A"
           "m@school.edu" (Some (Returned (Returned [1%Q]))) (Returned tt)
           "2025-10-09 08:00:00" Flushed Sample.fresh).
  right. left. exact Hm.
Defined.

(** A submission for a new key. *)
Lemma submit_registration_registered_witness :
  Cases.new_key.2 = Registered
  ∧ (strip " S3 " ∉ dict_keys (students Sample.fresh))
  ∧ dict_keys (students Cases.new_key.1) = ["S1"; "S2"; "S3"]
  ∧ image_path <$> dict_get "S3" (students Cases.new_key.1)
    = Some "attendance_data/student_images/S3.jpg"
  ∧ students_file Cases.new_key.1 = Pickle (students Cases.new_key.1).
Proof.
  assert (Hm : Cases.new_key.2 = Registered) by reflexivity.
  assert (Hnew : strip " S3 " ∉ dict_keys (students Sample.fresh)).
  { intros H. vm_compute in H.
    repeat (apply elem_of_cons in H as [H|H]; [discriminate H|]).
    by apply elem_of_nil in H. }
  destruct (submit_registration_registered " S3 " " Carol " "Class 9A"
              "carol@school.edu " (Some (Returned (Returned [1%Q])))
              (Returned tt) "2025-10-09 08:00:00" Flushed Sample.fresh Hm)
    as (_ & _ & _ & (e & rest & _ & Hget) & _ & Hkeys & _ & Hfile & _).
  split_and!; [exact Hm | exact Hnew | exact (Hkeys Hnew) | | exact Hfile].
  exact (f_equal (fmap image_path) Hget).
Defined.

(** A submission whose identifier is two blanks. *)
Lemma submit_registration_blank_identifier_witness :
  truthy "  " = true ∧ strip "  " = EmptyString
  ∧ truthy "Carol" = true ∧ "Class 9A" ≠ "Select Class"
  ∧ ("  " ∉ dict_keys (students Sample.fresh))
  ∧ Cases.blank_key = (Sample.fresh, RegistrationFailed ValueError).
Proof.
  assert (Hcls : "Class 9A" ≠ "Select Class") by discriminate.
  assert (Hnew : "  " ∉ dict_keys (students Sample.fresh)).
  { intros H. vm_compute in H.
    repeat (apply elem_of_cons in H as [H|H]; [discriminate H|]).
    by apply elem_of_nil in H. }
  split_and!; [reflexivity | reflexivity | reflexivity | exact Hcls
               | exact Hnew |].
  exact (submit_registration_blank_identifier "  " "Carol" "Class 9A"
           "carol@school.edu" 1%Q [] (Returned tt) "2025-10-09 08:00:00"
           Flushed Sample.fresh eq_refl eq_refl eq_refl Hcls Hnew).
Defined.

Lemma alice_present_keys_NoDup :
  NoDup (dict_keys (students Sample.alice_present)).
Proof.
  apply NoDup_cons. split; [|apply NoDup_singleton].
  intros H%list_elem_of_singleton. discriminate.
Qed.

Lemma alice_present_enrolled (r : attendance_record) :
  r ∈ attendance_records Sample.alice_present →
  student_id r ∈ dict_keys (students Sample.alice_present)
  ∧ status r = "Present".
Proof. intros ->%list_elem_of_singleton. split; [left | reflexivity]. Qed.

(** Alice recorded, then one more capture of her. *)
Lemma run_referenced_witness :
  referenced (students Sample.alice_present)
    (attendance_records Sample.alice_present)
  ∧ referenced
      (students (run Sample.dist1 Sample.one_capture Sample.alice_present))
      (attendance_records
         (run Sample.dist1 Sample.one_capture Sample.alice_present)).
Proof.
  assert (Href : referenced (students Sample.alice_present)
                   (attendance_records Sample.alice_present))
    by exact alice_present_enrolled.
  split; [exact Href|].
  exact (run_referenced Sample.dist1 Sample.one_capture Sample.alice_present
           Href).
Defined.

(** A start, a capture of Alice, and a new start. *)
Lemma restart_round_trip_witness :
  init (Pickle Sample.near_far) NoFile = Returned Cases.started
  ∧ forallb flushed Sample.one_capture = true
  ∧ attendance_records (run Sample.dist1 Sample.one_capture Cases.started)
    = [Cases.alice_event]
  ∧ init (students_file (run Sample.dist1 Sample.one_capture Cases.started))
      (attendance_file (run Sample.dist1 Sample.one_capture Cases.started))
    = Returned (run Sample.dist1 Sample.one_capture Cases.started).
Proof.
  assert (Hi : init (Pickle Sample.near_far) NoFile = Returned Cases.started)
    by reflexivity.
  assert (Hf : forallb flushed Sample.one_capture = true) by reflexivity.
  split_and!; [exact Hi | exact Hf | reflexivity |].
  exact (restart_round_trip Sample.dist1 _ _ Cases.started Sample.one_capture
           Hi Hf).
Defined.


Lemma alice_present_deduplicated :
  deduplicated (attendance_records Sample.alice_present).
Proof.
  intros sid d. unfold events_for. simpl. rewrite filter_cons.
  case_decide; simpl; lia.
Qed.

(** One event today and one student counted present. *)
Lemma today_attendance_count_witness :
  deduplicated (attendance_records Sample.alice_present)
  ∧ Z.of_nat (length (today_attendance "2025-10-08" Sample.alice_present))
    = present_today (get_attendance_stats "2025-10-08" Sample.alice_present).
Proof.
  split; [exact alice_present_deduplicated|].
  exact (today_attendance_count "2025-10-08" Sample.alice_present
           alice_present_deduplicated).
Defined.

(** Alice present, Bob absent: the numbers are in range. *)
Lemma get_attendance_stats_bounds_witness :
  NoDup (dict_keys (students Sample.alice_present))
  ∧ (∀ r, r ∈ attendance_records Sample.alice_present →
          rec_date r = "2025-10-08" →
          student_id r ∈ dict_keys (students Sample.alice_present))
  ∧ (0 ≤ absent_today (get_attendance_stats "2025-10-08" Sample.alice_present))%Z
  ∧ (attendance_rate (get_attendance_stats "2025-10-08" Sample.alice_present)
     <= 100)%Q.
Proof.
  assert (Hin : ∀ r, r ∈ attendance_records Sample.alice_present →
                  rec_date r = "2025-10-08" →
                  student_id r ∈ dict_keys (students Sample.alice_present))
    by (intros r Hr _; exact (proj1 (alice_present_enrolled r Hr))).
  destruct (get_attendance_stats_bounds "2025-10-08" Sample.alice_present
              alice_present_keys_NoDup Hin) as (_ & [Ha _] & _ & Hrate).
  split_and!; [exact alice_present_keys_NoDup | exact Hin | exact Ha
               | exact Hrate].
Defined.

(** Alice present, Bob absent: one row of each kind. *)
Lemma get_attendance_stats_match_report_witness :
  NoDup (dict_keys (students Sample.alice_present))
  ∧ (∀ r, r ∈ attendance_records Sample.alice_present →
          rec_date r = "2025-10-08" →
          student_id r ∈ dict_keys (students Sample.alice_present))
  ∧ present_today (get_attendance_stats "2025-10-08" Sample.alice_present)
    = Z.of_nat
        (length (filter (λ row, row_status row = "Present")
                   (report_data "2025-10-08" "All Classes"
                      Sample.alice_present)))
  ∧ absent_today (get_attendance_stats "2025-10-08" Sample.alice_present)
    = Z.of_nat
        (length (filter (λ row, row_status row = "Absent")
                   (report_data "2025-10-08" "All Classes"
                      Sample.alice_present))).
Proof.
  assert (Hin : ∀ r, r ∈ attendance_records Sample.alice_present →
                  rec_date r = "2025-10-08" →
                  student_id r ∈ dict_keys (students Sample.alice_present))
    by (intros r Hr _; exact (proj1 (alice_present_enrolled r Hr))).
  destruct (get_attendance_stats_match_report "2025-10-08"
              Sample.alice_present alice_present_keys_NoDup Hin) as [Hp Ha].
  split_and!; [exact alice_present_keys_NoDup | exact Hin | exact Hp | exact Ha].
Defined.

(** The absentees of Class 10A on the day Alice was recorded: Bob. *)
Lemma attendance_report_shows_witness :
  filter (λ e, "Class 10A" = "All Classes" ∨ class e.2 = "Class 10A")
    (students Sample.alice_present) ≠ []
  ∧ attendance_report "2025-10-08" "Class 10A" "Absentees Only"
      Sample.alice_present
    = ReportTable [ {| row_student_id := "S2"; row_name := "Bob";
                       row_class := "Class 10A"; row_status := "Absent" |} ].
Proof.
  assert (Hm : filter (λ e, "Class 10A" = "All Classes"
                            ∨ class e.2 = "Class 10A")
                 (students Sample.alice_present) ≠ [])
    by (intros H; vm_compute in H; discriminate H).
  assert (Ha : filter (λ e, events_for e.1 "2025-10-08"
                              (attendance_records Sample.alice_present) = [])
                 (filter (λ e, "Class 10A" = "All Classes"
                               ∨ class e.2 = "Class 10A")
                    (students Sample.alice_present)) ≠ [])
    by (intros H; vm_compute in H; discriminate H).
  destruct (attendance_report_shows "2025-10-08" "Class 10A" "Absentees Only"
              Sample.alice_present) as (_ & _ & Habs & _).
  split; [exact Hm|].
  rewrite (Habs Hm Ha). reflexivity.
Defined.

(** The class of Alice and Bob is offered and selects them. *)
Lemma offered_class_has_students_witness :
  students Sample.alice_present ≠ []
  ∧ "Class 10A" ∈ classes Sample.alice_present
  ∧ attendance_report "2025-10-08" "Class 10A" "All Students Status"
      Sample.alice_present ≠ NoStudentsFound.
Proof.
  assert (Hne : students Sample.alice_present ≠ []) by discriminate.
  assert (Hc : "Class 10A" ∈ classes Sample.alice_present).
  { assert (classes Sample.alice_present = ["All Classes"; "Class 10A"])
      as -> by (by vm_compute).
    right. left. }
  split_and!; [exact Hne | exact Hc |].
  exact (offered_class_has_students "2025-10-08" "Class 10A"
           "All Students Status" Sample.alice_present Hne Hc).
Defined.

(** A clear, a reset request and its cancellation keep the students. *)
Lemma reset_needs_confirmation_witness :
  forallb (λ c, negb (is_yes c)) Cases.settings_tour = true
  ∧ students (settings_clicks Cases.settings_tour (false, Sample.alice_present)).2
    = students Sample.alice_present
  ∧ attendance_records
      (settings_clicks Cases.settings_tour (false, Sample.alice_present)).2
    = [].
Proof.
  assert (Hf : forallb (λ c, negb (is_yes c)) Cases.settings_tour = true)
    by reflexivity.
  split_and!; [exact Hf | | reflexivity].
  exact (proj1 (proj1 (reset_needs_confirmation Cases.settings_tour false
                         Sample.alice_present) Hf)).
Defined.
